(** * jackett-python: the search aggregator of [app/main.py]

    A shallow embedding of the FastAPI service that fans a query out to
    the configured Jackett indexers, normalizes their results and keeps a
    TTL-gated cache of the configured indexer ids.

    - JSON data (the bodies of upstream replies, the records the service
      builds, the content of the cache file) is the inductive type [json];
      a Python dict is a key/value list read through [dict_get].  A str is
      the string of its UTF-8 bytes.
    - Code that can raise is written in the error monad [outcome]; code that
      also reads the clock, the network, the cache file or the global
      [last_cache_update] is written in [M], an error monad over an explicit
      [world].  What was done before an exception is raised stays done.
    - [exn] covers the subclasses of Python's [Exception] that this program
      meets.  Task cancellation ([asyncio.CancelledError], a
      [BaseException]) is outside the model. *)

From Stdlib Require Import ZArith List String Ascii DecimalString Bool Lia.
From Stdlib Require Import Permutation.
From ExtLib Require Import Structures.Monad.
Import ListNotations.
Import MonadNotation.
Local Open Scope string_scope.
Local Open Scope monad_scope.
Set Warnings "-register-all".


(** ** JSON values *)

(** What [json.loads] produces and [json.dumps] consumes.  Numbers are
    carried through the program untouched, so integers stand for them. *)
Inductive json : Type :=
| JNull                                   (* None *)
| JBool (b : bool)
| JNum (z : Z)
| JStr (s : string)
| JArr (items : list json)
| JObj (fields : list (string * json)).

(** A dict is the list of its items, in insertion order; its keys are
    distinct.  The entry it holds for [key] is the first binding found. *)
Fixpoint dict_get (key : string) (d : list (string * json)) : option json :=
  match d with
  | [] => None
  | (k, v) :: rest => if String.eqb k key then Some v else dict_get key rest
  end.

Definition dict_keys (d : list (string * json)) : list string := map fst d.

Definition is_not_None (j : json) : bool :=
  match j with JNull => false | _ => true end.

(** Python's truth value of a JSON value. *)
Definition truthy (j : json) : bool :=
  match j with
  | JNull => false
  | JBool b => b
  | JNum z => negb (Z.eqb z 0)
  | JStr s => negb (String.eqb s "")
  | JArr l => match l with [] => false | _ => true end
  | JObj d => match d with [] => false | _ => true end
  end.

Definition type_name (j : json) : string :=
  match j with
  | JNull => "NoneType"
  | JBool _ => "bool"
  | JNum _ => "int"
  | JStr _ => "str"
  | JArr _ => "list"
  | JObj _ => "dict"
  end.

(** ** Strings *)

Definition str_of_Z (z : Z) : string := NilZero.string_of_int (Z.to_int z).

Definition lower_char (c : ascii) : ascii :=
  let n := nat_of_ascii c in
  if (65 <=? n)%nat && (n <=? 90)%nat then ascii_of_nat (n + 32) else c.

(** Lowercasing of ASCII text: the letters A-Z are mapped to a-z, every
    other character is kept.  This is what [str.lower] does on a string
    that holds ASCII characters only. *)
Fixpoint ascii_lower (s : string) : string :=
  match s with
  | EmptyString => EmptyString
  | String c rest => String (lower_char c) (ascii_lower rest)
  end.

(** The string holds ASCII characters only (every byte is below 128). *)
Fixpoint ascii_only (s : string) : bool :=
  match s with
  | EmptyString => true
  | String c rest => (nat_of_ascii c <? 128)%nat && ascii_only rest
  end.

(** ** Exceptions and the error monad *)

Inductive exn : Type :=
| ClientError (msg : string)        (* aiohttp.ClientError and its subclasses *)
| TimeoutError (msg : string)       (* asyncio.TimeoutError *)
| JSONDecodeError (msg : string)    (* json.JSONDecodeError *)
| FileNotFoundError (msg : string)
| PermissionError (msg : string)
| OSError (msg : string)            (* any other OSError *)
| AttributeError (msg : string)
| TypeError (msg : string)
| KeyError (key : string)
| HTTPException (status_code : Z) (detail : string).   (* fastapi.HTTPException *)

(** [str(e)] *)
Definition exn_str (e : exn) : string :=
  match e with
  | ClientError m | TimeoutError m | JSONDecodeError m | FileNotFoundError m
  | PermissionError m | OSError m | AttributeError m | TypeError m => m
  | KeyError k => "'" ++ k ++ "'"
  | HTTPException c d => str_of_Z c ++ ": " ++ d
  end.

Inductive outcome (A : Type) : Type :=
| Ok (a : A)
| Raise (e : exn).
Arguments Ok {A} a.
Arguments Raise {A} e.

#[export] Instance Monad_outcome : Monad outcome :=
  {| ret := fun _ a => Ok a;
     bind := fun _ _ c k => match c with Ok a => k a | Raise e => Raise e end |}.

(** A list comprehension whose element expression can raise: elements are
    evaluated left to right and the first exception ends the evaluation. *)
Fixpoint comprehension {A B : Type} (f : A -> outcome B) (l : list A)
  : outcome (list B) :=
  match l with
  | [] => Ok []
  | x :: rest =>
      match f x with
      | Raise e => Raise e
      | Ok y => match comprehension f rest with
                | Raise e => Raise e
                | Ok ys => Ok (y :: ys)
                end
      end
  end.

(** [[f x for x in l if cond x]]: for each element the condition is
    evaluated first, the element expression only when it holds. *)
Fixpoint comprehension_if {A B : Type} (f : A -> outcome B)
    (cond : A -> outcome bool) (l : list A) : outcome (list B) :=
  match l with
  | [] => Ok []
  | x :: rest =>
      match cond x with
      | Raise e => Raise e
      | Ok false => comprehension_if f cond rest
      | Ok true =>
          match f x with
          | Raise e => Raise e
          | Ok y => match comprehension_if f cond rest with
                    | Raise e => Raise e
                    | Ok ys => Ok (y :: ys)
                    end
          end
      end
  end.

Definition no_attribute (obj : json) (attr : string) : exn :=
  AttributeError ("'" ++ type_name obj ++ "' object has no attribute '" ++ attr ++ "'").

(** [obj.get(key, default)]: only a dict has the method. *)
Definition py_get (obj : json) (key : string) (default : json) : outcome json :=
  match obj with
  | JObj d => Ok (match dict_get key d with Some v => v | None => default end)
  | _ => Raise (no_attribute obj "get")
  end.

(** [obj[key]] on a value the program expects to be a dict. *)
Definition py_item (obj : json) (key : string) : outcome json :=
  match obj with
  | JObj d => match dict_get key d with
              | Some v => Ok v
              | None => Raise (KeyError key)
              end
  | JArr _ => Raise (TypeError "list indices must be integers or slices, not str")
  | JStr _ => Raise (TypeError "string indices must be integers, not 'str'")
  | _ => Raise (TypeError ("'" ++ type_name obj ++ "' object is not subscriptable"))
  end.

Definition chars (s : string) : list json :=
  map (fun c => JStr (String c EmptyString)) (list_ascii_of_string s).

(** [for x in obj]: a list gives its elements, a dict its keys, a str its
    characters; anything else is not iterable. *)
Definition py_iter (obj : json) : outcome (list json) :=
  match obj with
  | JArr l => Ok l
  | JObj d => Ok (map JStr (dict_keys d))
  | JStr s => Ok (chars s)
  | _ => Raise (TypeError ("'" ++ type_name obj ++ "' object is not iterable"))
  end.

(** [len(obj)] *)
Definition py_len (obj : json) : outcome nat :=
  match obj with
  | JArr l => Ok (List.length l)
  | JObj d => Ok (List.length d)
  | JStr s => Ok (String.length s)
  | _ => Raise (TypeError ("object of type '" ++ type_name obj ++ "' has no len()"))
  end.

(** ** JSON helpers of the service *)

(** [jsonable_encoder] leaves data that is already JSON as it is. *)
Definition jsonable_encoder (j : json) : json := j.

(** The value [d.get(key)] of a dict given as a key/value list. *)
Definition field (key : string) (d : list (string * json)) : json :=
  match dict_get key d with Some v => v | None => JNull end.

(** The list comprehension of [get_configured_indexers]:
    [[indexer["id"] for indexer in indexers_data if indexer.get("configured", False)]] *)
Definition configured_ids (indexers_data : list json) : outcome (list json) :=
  comprehension_if
    (fun indexer => py_item indexer "id")
    (fun indexer => c <- py_get indexer "configured" (JBool false) ;; ret (truthy c))
    indexers_data.

(** ** The world the service runs in *)

(** An HTTP response as the program reads it: [response.status],
    [response.reason] and what [await response.json()] gives. *)
Record response : Type := {
  status : Z;
  reason : string;
  body : outcome json
}.

(** What a request meets: the time it takes and either a response or the
    exception [session.get] raises. *)
Record reply : Type := {
  elapsed : Z;
  answer : outcome response
}.

Definition params : Type := list (string * option string).

Inductive level : Type := INFO | ERROR.

(** What the service does that can be observed from outside its return
    values: log lines and HTTP requests, most recent first. *)
Inductive event : Type :=
| Log (lvl : level) (msg : string)
| Request (url : string) (ps : params).

(** Times are in microseconds, the resolution of [datetime]. *)
Record world : Type := {
  last_cache_update : Z;                 (* the module global *)
  now : Z;                               (* the wall clock *)
  cache_file : option (outcome json);    (* CACHE_FILE: absent, or what
                                            open + json.load give *)
  write_fault : option exn;              (* what writing CACHE_FILE raises *)
  write_leaves : option (outcome json);  (* when the write fails after the
                                            file was opened: what reading
                                            the file then gives *)
  net : string -> params -> reply;       (* the upstream Jackett server *)
  trace : list event
}.

Definition CACHE_FILE : string := "configured_indexers.json".

(** [timedelta(minutes=30)] *)
Definition CACHE_DURATION : Z := 30 * 60 * 1000000.

(** The world right after the module is imported at time [t]:
    [last_cache_update = datetime.now()].  A write fault of this world, if
    it has one, strikes at [open]. *)
Definition startup (t : Z) (file : option (outcome json)) (fault : option exn)
    (network : string -> params -> reply) : world :=
  {| last_cache_update := t; now := t; cache_file := file;
     write_fault := fault; write_leaves := None; net := network;
     trace := [] |}.

(** Time passing between two requests to the service. *)
Definition wait (d : Z) (w : world) : world :=
  {| last_cache_update := last_cache_update w; now := now w + d;
     cache_file := cache_file w; write_fault := write_fault w;
     write_leaves := write_leaves w;
     net := net w; trace := trace w |}.

Definition M (A : Type) : Type := world -> outcome A * world.

#[export] Instance Monad_M : Monad M :=
  {| ret := fun _ a w => (Ok a, w);
     bind := fun _ _ c k w =>
       match c w with
       | (Ok a, w') => k a w'
       | (Raise e, w') => (Raise e, w')
       end |}.

Definition raise {A : Type} (e : exn) : M A := fun w => (Raise e, w).

Definition lift {A : Type} (c : outcome A) : M A := fun w => (c, w).

(** [try: body  except <classes> as e: handler e] *)
Definition try_except {A : Type} (body : M A) (classes : exn -> bool)
    (handler : exn -> M A) : M A :=
  fun w =>
    match body w with
    | (Ok a, w') => (Ok a, w')
    | (Raise e, w') => if classes e then handler e w' else (Raise e, w')
    end.

Definition Exception (e : exn) : bool := true.

Definition aiohttp_ClientError (e : exn) : bool :=
  match e with ClientError _ => true | _ => false end.

(** The tuple [(FileNotFoundError, json.JSONDecodeError)]. *)
Definition FileNotFoundError_or_JSONDecodeError (e : exn) : bool :=
  match e with
  | FileNotFoundError _ | JSONDecodeError _ => true
  | _ => false
  end.

Definition record (ev : event) : M unit :=
  fun w => (Ok tt,
            {| last_cache_update := last_cache_update w; now := now w;
               cache_file := cache_file w; write_fault := write_fault w;
               write_leaves := write_leaves w;
               net := net w; trace := ev :: trace w |}).

Definition logger_info (msg : string) : M unit := record (Log INFO msg).
Definition logger_error (msg : string) : M unit := record (Log ERROR msg).

(** [datetime.now()] and [time.time()] *)
Definition datetime_now : M Z := fun w => (Ok (now w), w).

Definition read_last_cache_update : M Z := fun w => (Ok (last_cache_update w), w).

Definition assign_last_cache_update (t : Z) : M unit :=
  fun w => (Ok tt,
            {| last_cache_update := t; now := now w;
               cache_file := cache_file w; write_fault := write_fault w;
               write_leaves := write_leaves w;
               net := net w; trace := trace w |}).

(** [async with session.get(url, params=params) as response]: the request
    is recorded, the clock advances by the time the server takes. *)
Definition session_get (url : string) (ps : params) : M response :=
  fun w =>
    let r := net w url ps in
    (answer r,
     {| last_cache_update := last_cache_update w; now := now w + elapsed r;
        cache_file := cache_file w; write_fault := write_fault w;
        write_leaves := write_leaves w;
        net := net w; trace := Request url ps :: trace w |}).

Definition response_json (r : response) : M json := lift (body r).

(** [os.path.exists(CACHE_FILE)] *)
Definition os_path_exists_CACHE_FILE : M bool :=
  fun w => (Ok (match cache_file w with Some _ => true | None => false end), w).

(** [with open(CACHE_FILE, "r") as f: json.load(f)] *)
Definition load_CACHE_FILE : M json :=
  fun w =>
    match cache_file w with
    | Some content => (content, w)
    | None => (Raise (FileNotFoundError
                 ("[Errno 2] No such file or directory: '" ++ CACHE_FILE ++ "'")), w)
    end.

(** What is left of the cache file when writing it raises [e].  A failure
    of [open] leaves the file as it was.  A failure of [json.dump] or of
    closing the file, which only an OSError can be (disk full, file size
    limit), comes after [open] has truncated the file: the file then is what
    [write_leaves] says. *)
Definition left_on_disk (e : exn) (w : world) : option (outcome json) :=
  match e, write_leaves w with
  | OSError _, Some remnant => Some remnant
  | _, _ => cache_file w
  end.

Definition failed_write (e : exn) (w : world) : world :=
  {| last_cache_update := last_cache_update w; now := now w;
     cache_file := left_on_disk e w; write_fault := write_fault w;
     write_leaves := write_leaves w; net := net w; trace := trace w |}.

(** [with open(CACHE_FILE, "w") as f: json.dump(data, f)] *)
Definition dump_CACHE_FILE (data : json) : M unit :=
  fun w =>
    match write_fault w with
    | Some e => (Raise e, failed_write e w)
    | None =>
        (Ok tt,
         {| last_cache_update := last_cache_update w; now := now w;
            cache_file := Some (Ok data); write_fault := write_fault w;
            write_leaves := write_leaves w;
            net := net w; trace := trace w |})
    end.

(** The outcome of a generator: what it yielded, and the exception that
    ended it if one did. *)
Record stream : Type := {
  emitted : list string;
  failure : option exn
}.

Definition yield_all (items : list string) (s : stream) : stream :=
  {| emitted := items ++ emitted s; failure := failure s |}.

(** [asyncio.create_task] for each coroutine, run by the event loop: every
    task runs to its end and keeps its outcome.  The log lines and requests
    of the tasks are recorded task by task; how they interleave in time is
    not modelled. *)
Fixpoint create_tasks {A : Type} (coros : list (M A)) (w : world)
  : list (outcome A) * world :=
  match coros with
  | [] => ([], w)
  | c :: rest =>
      let (r, w1) := c w in
      let (rs, w2) := create_tasks rest w1 in
      (r :: rs, w2)
  end.

(** [asyncio.as_completed(tasks)]: the tasks in the order they finish,
    given as the list [order] of their positions in [tasks]. *)
Definition as_completed {A : Type} (order : list nat) (tasks : list A) : list A :=
  flat_map (fun i => match nth_error tasks i with
                     | Some t => [t]
                     | None => []
                     end) order.

(** [order] names every one of [n] tasks once. *)
Definition completion_order (order : list nat) (n : nat) : Prop :=
  Permutation order (seq 0 n).

(** ** A sample deployment *)

(** A Jackett server with three configured indexers, of which [beta] is
    down, used to run the service on concrete inputs. *)
Definition sample_url : option string := Some "http://jackett:9117".
Definition sample_key : option string := Some "secret".

Definition sample_raw : json :=
  JObj [("Title", JStr "Ubuntu 24.04");
        ("Link", JStr "http://tracker.example/1.torrent");
        ("InfoHash", JStr "ABCDEF0123");
        ("Tracker", JStr "alpha");
        ("Seeders", JNum 12)].

Definition sample_indexers : json :=
  JArr [JObj [("id", JStr "alpha"); ("configured", JBool true)];
        JObj [("id", JStr "beta"); ("configured", JBool true)];
        JObj [("id", JStr "unused")];
        JObj [("id", JStr "gamma"); ("configured", JBool true)]].

Definition sample_ok (data : json) : reply :=
  {| elapsed := 250000;
     answer := Ok {| status := 200; reason := "OK"; body := Ok data |} |}.

Definition sample_unavailable : reply :=
  {| elapsed := 100000;
     answer := Ok {| status := 503; reason := "Service Unavailable";
                     body := Raise (ClientError "unexpected mimetype: text/html") |} |}.

Definition sample_net (url : string) (ps : params) : reply :=
  if String.eqb url "http://jackett:9117/api/v2.0/indexers" then
    sample_ok sample_indexers
  else if String.eqb url "http://jackett:9117/api/v2.0/indexers/alpha/results" then
    sample_ok (JObj [("Results", JArr [sample_raw])])
  else if String.eqb url "http://jackett:9117/api/v2.0/indexers/gamma/results" then
    sample_ok (JObj [("Indexers", JArr [])])
  else
    sample_unavailable.

(** An upstream list with an entry that is configured but has no id. *)
Definition sample_net_missing_id (url : string) (ps : params) : reply :=
  sample_ok (JArr [JObj [("id", JStr "alpha"); ("configured", JBool true)];
                   JObj [("name", JStr "beta"); ("configured", JBool true)]]).

Definition sample_dumps (j : json) : string :=
  match j with
  | JObj (("error", JStr msg) :: _) => "{error: " ++ msg ++ "}"
  | JObj (("Title", JStr title) :: _) => "{Title: " ++ title ++ ", ...}"
  | _ => "..."
  end.

Definition sample_repr (j : json) : string := "...".

(** The data of the sample deployment are ASCII; on other strings this
    lowercasing leaves the bytes outside ASCII as they are. *)
Definition sample_unicode_lower (s : string) : string := ascii_lower s.

Definition sample_2f (microseconds : Z) : string :=
  let cents := (microseconds / 10000 mod 100)%Z in
  str_of_Z (microseconds / 1000000) ++ "."
  ++ (if (cents <? 10)%Z then "0" else "") ++ str_of_Z cents.

(** ** The service *)

Section Service.

(** The process environment, read once at import by [os.getenv]. *)
Variable JACKETT_API_URL : option string.
Variable API_KEY : option string.

(** Python library functions the program formats text with:
    [json.dumps], [repr] of a list or dict, and the format
    spec [:.2f] applied to a duration. *)
Variable json_dumps : json -> string.
Variable py_repr : json -> string.
Variable format_2f : Z -> string.

(** [str.lower] on a string that holds a character outside ASCII, where
    Python lowercases by the Unicode tables. *)
Variable unicode_lower : string -> string.

(** [s.lower()] *)
Definition str_lower (s : string) : string :=
  if ascii_only s then ascii_lower s else unicode_lower s.

(** [obj.lower()]: only a str has the method. *)
Definition py_lower (obj : json) : outcome string :=
  match obj with
  | JStr s => Ok (str_lower s)
  | _ => Raise (no_attribute obj "lower")
  end.

(** *** Result normalizer *)

Definition create_magnet_link (result : json) : outcome json :=
  torrenturl <- py_get result "Link" JNull ;;
  infohash <- py_get result "InfoHash" JNull ;;
  magneturi <- py_get result "MagnetUri" JNull ;;
  if is_not_None magneturi then
    ret magneturi
  else if is_not_None torrenturl && is_not_None infohash then
    h <- py_lower infohash ;;
    ret (JStr ("magnet:?xt=urn:btih:" ++ h))
  else
    ret torrenturl.

Definition trimmed_result (result : json) : outcome json :=
  title <- py_get result "Title" JNull ;;
  link <- create_magnet_link result ;;
  size <- py_get result "Size" JNull ;;
  seeders <- py_get result "Seeders" JNull ;;
  leechers <- py_get result "Leechers" JNull ;;
  infohash <- py_get result "InfoHash" JNull ;;
  tracker <- py_get result "Tracker" JNull ;;
  year <- py_get result "Year" JNull ;;
  details <- py_get result "Details" JNull ;;
  ret (JObj [("Title", title);
             ("Link", link);
             ("Size", size);
             ("Seeders", seeders);
             ("Leechers", leechers);
             ("InfoHash", infohash);
             ("IndexerId", tracker);
             ("year", year);
             ("Details", details)]).


(** [str(x)] as an f-string applies it. *)
Definition py_str (j : json) : string :=
  match j with
  | JStr s => s
  | JNum z => str_of_Z z
  | JBool true => "True"
  | JBool false => "False"
  | JNull => "None"
  | _ => py_repr j
  end.

Definition str_of_option (o : option string) : string :=
  match o with Some s => s | None => "None" end.

Definition get_search_results_url (indexer_id : string) : string :=
  str_of_option JACKETT_API_URL ++ "/api/v2.0/indexers/" ++ indexer_id ++ "/results".

Definition fetch_jackett_results_for_indexer (indexer_id query : string)
  : M (list json) :=
  let url := get_search_results_url indexer_id in
  let params := [("apikey", API_KEY); ("Query", Some query)] in
  try_except
    (response <- session_get url params ;;
     if (status response =? 200)%Z then
       data <- response_json response ;;
       results <- lift (py_get data "Results" (JArr [])) ;;
       n <- lift (py_len results) ;;
       logger_info ("Indexer " ++ indexer_id ++ " returned "
                    ++ str_of_Z (Z.of_nat n) ++ " results.") ;;
       items <- lift (py_iter results) ;;
       lift (comprehension
               (fun result => r <- trimmed_result result ;; ret (jsonable_encoder r))
               items)
     else
       logger_error ("Error fetching from indexer " ++ indexer_id ++ ": "
                     ++ str_of_Z (status response)) ;;
       ret [JObj [("error", JStr ("Error fetching from indexer " ++ indexer_id
                                   ++ ": " ++ str_of_Z (status response)))]])
    Exception
    (fun e =>
       logger_error ("Exception fetching from indexer " ++ indexer_id ++ ": "
                     ++ exn_str e) ;;
       ret [JObj [("error", JStr ("Exception fetching from indexer " ++ indexer_id
                                   ++ ": " ++ exn_str e))]]).

Definition process_indexer (indexer_id query : string) : M (list json) :=
  start_time <- datetime_now ;;
  logger_info ("Starting query for indexer " ++ indexer_id) ;;
  results <- fetch_jackett_results_for_indexer indexer_id query ;;
  end_time <- datetime_now ;;
  logger_info ("Finished query for indexer " ++ indexer_id ++ ". Time taken: "
               ++ format_2f (end_time - start_time) ++ " seconds") ;;
  ret results.

Definition get_configured_indexers : M json :=
  let params := [("apikey", API_KEY)] in
  let url := str_of_option JACKETT_API_URL ++ "/api/v2.0/indexers" in
  try_except
    (response <- session_get url params ;;
     if (status response =? 200)%Z then
       indexers_data <- response_json response ;;
       items <- lift (py_iter indexers_data) ;;
       configured_indexers <- lift (configured_ids items) ;;
       ret (JArr configured_indexers)
     else
       let error_message := "Jackett API Error: " ++ str_of_Z (status response)
                            ++ " - " ++ reason response in
       logger_error error_message ;;
       raise (HTTPException (status response) error_message))
    aiohttp_ClientError
    (fun e =>
       let error_message := "Error connecting to Jackett API: " ++ exn_str e in
       logger_error error_message ;;
       raise (HTTPException 500 error_message)).

(** The clock and the global are read before the test; the [and] of the
    source reads them only when the file exists, which makes no difference
    as reading them has no effect. *)
Definition get_configured_indexers_from_file : M json :=
  file_exists <- os_path_exists_CACHE_FILE ;;
  t <- datetime_now ;;
  last <- read_last_cache_update ;;
  cached <-
    (if file_exists && (t - last <? CACHE_DURATION)%Z then
       try_except
         (content <- load_CACHE_FILE ;; ret (Some content))
         FileNotFoundError_or_JSONDecodeError
         (fun e =>
            logger_error ("Error reading cache file: " ++ exn_str e) ;;
            ret None)
     else
       ret None) ;;
  match cached with
  | Some content => ret content
  | None =>
      logger_info
        "Cache is stale or doesn't exist. Fetching configured indexers from Jackett..." ;;
      configured_indexers <- get_configured_indexers ;;
      try_except
        (dump_CACHE_FILE configured_indexers)
        FileNotFoundError_or_JSONDecodeError
        (fun e => logger_error ("Error saving cache file: " ++ exn_str e)) ;;
      t' <- datetime_now ;;
      assign_last_cache_update t' ;;
      ret configured_indexers
  end.

(** One server-sent event: [f"data: {json.dumps(item)}\n\n"]. *)
Definition sse (item : json) : string :=
  "data: " ++ json_dumps item ++ String "010" (String "010" EmptyString).

(** The loop over [asyncio.as_completed(tasks)]: each finished task is
    awaited, which raises what the task raised, and its items are yielded
    one by one. *)
Fixpoint drain (completed : list (outcome (list json))) : stream :=
  match completed with
  | [] => {| emitted := []; failure := None |}
  | Ok results :: rest => yield_all (map sse results) (drain rest)
  | Raise e :: _ => {| emitted := []; failure := Some e |}
  end.

Definition event_generator (order : list nat) (query : string)
  : world -> stream * world :=
  fun w =>
    match get_configured_indexers_from_file w with
    | (Raise e, w1) => ({| emitted := []; failure := Some e |}, w1)
    | (Ok configured_indexers, w1) =>
        match py_iter configured_indexers with
        | Raise e => ({| emitted := []; failure := Some e |}, w1)
        | Ok ids =>
            let (tasks, w2) :=
              create_tasks
                (map (fun indexer_id => process_indexer (py_str indexer_id) query) ids)
                w1 in
            (drain (as_completed order tasks), w2)
        end
    end.

(** [GET /search]: the body of the streaming response is the generator. *)
Definition search (order : list nat) (query : string) : world -> stream * world :=
  event_generator order query.

(** [GET /indexers] *)
Definition get_indexers : M json :=
  configured_indexers <- get_configured_indexers ;;
  try_except
    (dump_CACHE_FILE configured_indexers)
    FileNotFoundError_or_JSONDecodeError
    (fun e => logger_error ("Error saving cache file: " ++ exn_str e)) ;;
  ret (JObj [("indexers", configured_indexers)]).

(** ** Vocabulary of the statements *)

(** An ErrorRecord: [{"error": msg}]. *)
Definition error_record (msg : string) : json := JObj [("error", JStr msg)].

Definition is_error_record (j : json) : bool :=
  match j with
  | JObj d => match dict_get "error" d with Some _ => true | None => false end
  | _ => false
  end.

Definition query_params (query : string) : params :=
  [("apikey", API_KEY); ("Query", Some query)].

(** What the executor makes of the body of a 200 response. *)
Definition normalized_results (b : outcome json) : outcome (list json) :=
  data <- b ;;
  results <- py_get data "Results" (JArr []) ;;
  _ <- py_len results ;;
  items <- py_iter results ;;
  comprehension trimmed_result items.

(** The batch the executor returns for a backend whose request met [r]. *)
Definition batch (indexer_id : string) (r : reply) : list json :=
  match answer r with
  | Raise e =>
      [error_record ("Exception fetching from indexer " ++ indexer_id ++ ": "
                     ++ exn_str e)]
  | Ok resp =>
      if (status resp =? 200)%Z then
        match normalized_results (body resp) with
        | Ok l => l
        | Raise e =>
            [error_record ("Exception fetching from indexer " ++ indexer_id
                           ++ ": " ++ exn_str e)]
        end
      else
        [error_record ("Error fetching from indexer " ++ indexer_id ++ ": "
                       ++ str_of_Z (status resp))]
  end.

(** [normalized] holds, record by record and in the same order, what the
    normalizer makes of [raws]. *)
Definition normalizes_to (raws normalized : list json) : Prop :=
  Forall2 (fun raw n => trimmed_result raw = Ok n) raws normalized.

(** A backend's request succeeds: status 200 and a body whose Results (an
    absent entry counting as the empty list) normalize to [normalized]. *)
Definition succeeds (r : reply) (normalized : list json) : Prop :=
  exists resp d raws,
    answer r = Ok resp
    /\ status resp = 200%Z
    /\ body resp = Ok (JObj d)
    /\ match dict_get "Results" d with Some v => v | None => JArr [] end = JArr raws
    /\ normalizes_to raws normalized.

(** A backend's request fails: it raises, or the status is not 200, or the
    body of a 200 response is malformed: it cannot be decoded, or what it
    decodes to is not a JSON object. *)
Definition fails (r : reply) : Prop :=
  (exists e, answer r = Raise e)
  \/ (exists resp, answer r = Ok resp /\ status resp <> 200%Z)
  \/ (exists resp e, answer r = Ok resp /\ status resp = 200%Z
                     /\ body resp = Raise e)
  \/ (exists resp data, answer r = Ok resp /\ status resp = 200%Z
                        /\ body resp = Ok data /\ forall d, data <> JObj d).

(** The message [err] names the backend and how its request [r] failed. *)
Definition names_failure (indexer_id : string) (r : reply) (err : string) : Prop :=
  (exists resp,
      answer r = Ok resp /\ status resp <> 200%Z
      /\ err = "Error fetching from indexer " ++ indexer_id ++ ": "
               ++ str_of_Z (status resp))
  \/ (exists e,
        answer r = Raise e
        /\ err = "Exception fetching from indexer " ++ indexer_id ++ ": "
                 ++ exn_str e)
  \/ (exists resp e,
        answer r = Ok resp /\ status resp = 200%Z /\ body resp = Raise e
        /\ err = "Exception fetching from indexer " ++ indexer_id ++ ": "
                 ++ exn_str e)
  \/ (exists resp data,
        answer r = Ok resp /\ status resp = 200%Z /\ body resp = Ok data
        /\ (forall d, data <> JObj d)
        /\ err = "Exception fetching from indexer " ++ indexer_id ++ ": '"
                 ++ type_name data ++ "' object has no attribute 'get'").

(** The request [get_configured_indexers] sends. *)
Definition list_url : string :=
  str_of_option JACKETT_API_URL ++ "/api/v2.0/indexers".

Definition list_params : params := [("apikey", API_KEY)].

Definition is_list_call (ev : event) : bool :=
  match ev with
  | Request url _ => String.eqb url list_url
  | Log _ _ => false
  end.

(** How often the upstream list of indexers has been requested so far. *)
Definition upstream_list_calls (w : world) : nat :=
  List.length (filter is_list_call (trace w)).

(** The upstream list call succeeds and yields [snapshot]: status 200 and
    a body from which the configured ids can be collected. *)
Definition listing (r : reply) (snapshot : json) : Prop :=
  exists resp data items ids,
    answer r = Ok resp
    /\ status resp = 200%Z
    /\ body resp = Ok data
    /\ py_iter data = Ok items
    /\ configured_ids items = Ok ids
    /\ snapshot = JArr ids.

(** The accessor does not serve the cache file: there is none, or the TTL
    has elapsed since [last_cache_update], or reading it raises one of the
    exceptions the accessor catches. *)
Definition refresh_due (w : world) : Prop :=
  cache_file w = None
  \/ (CACHE_DURATION <= now w - last_cache_update w)%Z
  \/ (exists e, cache_file w = Some (Raise e)
                /\ FileNotFoundError_or_JSONDecodeError e = true).

(** The world after the log lines [lines] (most recent first) are written. *)
Definition logged (lines : list (level * string)) (w : world) : world :=
  {| last_cache_update := last_cache_update w; now := now w;
     cache_file := cache_file w; write_fault := write_fault w;
     write_leaves := write_leaves w;
     net := net w;
     trace := map (fun l => Log (fst l) (snd l)) lines ++ trace w |}.

(** A computation that leaves the part [f] of the world as it is. *)
Definition keeps {A X : Type} (f : world -> X) (c : M A) : Prop :=
  forall w, f (snd (c w)) = f w.

(** The HTTP requests of a trace, most recent first. *)
Fixpoint requests (tr : list event) : list (string * params) :=
  match tr with
  | [] => []
  | Request url ps :: rest => (url, ps) :: requests rest
  | Log _ _ :: rest => requests rest
  end.

(** The condition, the element and the usability of an entry of the
    upstream list as the comprehension of [get_configured_indexers] sees
    them: an entry is usable when it is a dict and, if configured, has an
    id. *)
Definition entry_configured (indexer : json) : bool :=
  match indexer with
  | JObj d => truthy (match dict_get "configured" d with
                      | Some c => c
                      | None => JBool false
                      end)
  | _ => false
  end.

Definition entry_id (indexer : json) : json :=
  match indexer with
  | JObj d => field "id" d
  | _ => JNull
  end.

Definition entry_usable (indexer : json) : bool :=
  match indexer with
  | JObj d => negb (entry_configured indexer)
              || match dict_get "id" d with Some _ => true | None => false end
  | _ => false
  end.

(** The request met a failure in the sense of [fails]. *)
Definition failed (r : reply) : bool :=
  match answer r with
  | Raise _ => true
  | Ok resp => negb (status resp =? 200)%Z
  end.

(** ** Properties of the result normalizer *)

Definition is_str (j : json) : bool :=
  match j with JStr _ => true | _ => false end.

(** The Link can be resolved without lowering something that is not a
    string. *)
Definition link_resolvable (d : list (string * json)) : bool :=
  is_not_None (field "MagnetUri" d)
  || negb (is_not_None (field "Link" d))
  || negb (is_not_None (field "InfoHash" d))
  || is_str (field "InfoHash" d).

Lemma py_get_dict (d : list (string * json)) (key : string) :
  py_get (JObj d) key JNull = Ok (field key d).
Proof. reflexivity. Qed.

Lemma create_magnet_link_dict (d : list (string * json)) :
  create_magnet_link (JObj d) =
  if is_not_None (field "MagnetUri" d) then Ok (field "MagnetUri" d)
  else if is_not_None (field "Link" d) && is_not_None (field "InfoHash" d)
       then match py_lower (field "InfoHash" d) with
            | Ok h => Ok (JStr ("magnet:?xt=urn:btih:" ++ h))
            | Raise e => Raise e
            end
       else Ok (field "Link" d).
Proof.
  unfold create_magnet_link. rewrite !py_get_dict. cbn.
  destruct (is_not_None (field "MagnetUri" d)); [reflexivity|].
  destruct (is_not_None (field "Link" d) && is_not_None (field "InfoHash" d));
    reflexivity.
Qed.

Lemma trimmed_result_dict (d : list (string * json)) :
  trimmed_result (JObj d) =
  match create_magnet_link (JObj d) with
  | Raise e => Raise e
  | Ok link =>
      Ok (JObj [("Title", field "Title" d);
                ("Link", link);
                ("Size", field "Size" d);
                ("Seeders", field "Seeders" d);
                ("Leechers", field "Leechers" d);
                ("InfoHash", field "InfoHash" d);
                ("IndexerId", field "Tracker" d);
                ("year", field "Year" d);
                ("Details", field "Details" d)])
  end.
Proof.
  unfold trimmed_result. rewrite !py_get_dict. cbn.
  destruct (create_magnet_link (JObj d)); reflexivity.
Qed.

Lemma create_magnet_link_total (d : list (string * json)) :
  link_resolvable d = true -> exists link, create_magnet_link (JObj d) = Ok link.
Proof.
  unfold link_resolvable. intros H. rewrite create_magnet_link_dict.
  destruct (is_not_None (field "MagnetUri" d)); [eexists; reflexivity|].
  destruct (is_not_None (field "Link" d)); cbn in *; [|eexists; reflexivity].
  destruct (field "InfoHash" d); cbn in *; try discriminate; eexists; reflexivity.
Qed.

(** C3 (amended): for every raw result whose [MagnetUri] is absent or null
    and whose [Link] and [InfoHash] are both present as strings, the
    normalized Link is [magnet:?xt=urn:btih:] followed by the lowercased
    info-hash, that is by what [str.lower] makes of it (for an info-hash of
    ASCII characters: the letters A-Z replaced by a-z); the torrent URL plays
    no part in it: any other record with a null magnet URI, some torrent URL
    and the same info-hash gets the same Link. *)
Theorem C3_magnet_link_synthesized (d : list (string * json)) (url h : string) :
  field "MagnetUri" d = JNull ->
  field "Link" d = JStr url ->
  field "InfoHash" d = JStr h ->
  (exists out, trimmed_result (JObj d) = Ok (JObj out)
               /\ field "Link" out = JStr ("magnet:?xt=urn:btih:" ++ str_lower h))
  /\ (ascii_only h = true -> str_lower h = ascii_lower h)
  /\ (forall d' url',
        field "MagnetUri" d' = JNull ->
        field "Link" d' = JStr url' ->
        field "InfoHash" d' = JStr h ->
        create_magnet_link (JObj d') = create_magnet_link (JObj d)).
Proof.
  intros Hm Hl Hh.
  assert (Hlink : forall d0 u0,
             field "MagnetUri" d0 = JNull -> field "Link" d0 = JStr u0 ->
             field "InfoHash" d0 = JStr h ->
             create_magnet_link (JObj d0)
             = Ok (JStr ("magnet:?xt=urn:btih:" ++ str_lower h))).
  { intros d0 u0 H1 H2 H3. rewrite create_magnet_link_dict, H1, H2, H3.
    reflexivity. }
  split; [|split].
  - rewrite trimmed_result_dict, (Hlink d url Hm Hl Hh).
    eexists. split; reflexivity.
  - intros Hascii. unfold str_lower. rewrite Hascii. reflexivity.
  - intros d' url' H1 H2 H3.
    rewrite (Hlink d' url' H1 H2 H3), (Hlink d url Hm Hl Hh). reflexivity.
Qed.

(** C7 (amended): for every raw result whose Link can be resolved (a magnet
    URI is present, or the torrent URL or the info-hash is absent, or the
    info-hash is a string) normalization succeeds and yields a record with
    exactly the keys Title, Link, Size, Seeders, Leechers, InfoHash,
    IndexerId, year, Details, in that order: Link is the resolved link,
    Title, Size, Seeders, Leechers, InfoHash and Details carry the input
    field of the same name, IndexerId carries the input's Tracker and year
    the input's Year; a field absent from the input is present in the output
    with the value null. *)
Theorem C7_normalized_record (d : list (string * json)) :
  link_resolvable d = true ->
  exists link out,
    create_magnet_link (JObj d) = Ok link
    /\ trimmed_result (JObj d) = Ok (JObj out)
    /\ dict_keys out = ["Title"; "Link"; "Size"; "Seeders"; "Leechers";
                        "InfoHash"; "IndexerId"; "year"; "Details"]
    /\ dict_get "Link" out = Some link
    /\ (forall key, In key ["Title"; "Size"; "Seeders"; "Leechers";
                            "InfoHash"; "Details"] ->
                    dict_get key out = Some (field key d))
    /\ dict_get "IndexerId" out = Some (field "Tracker" d)
    /\ dict_get "year" out = Some (field "Year" d)
    /\ (forall key, dict_get key d = None -> field key d = JNull).
Proof.
  intros H. destruct (create_magnet_link_total d H) as [link Hlink].
  exists link. rewrite trimmed_result_dict, Hlink.
  eexists. split; [reflexivity|]. split; [reflexivity|].
  split; [reflexivity|]. split; [reflexivity|]. split.
  - intros key Hin. cbn in Hin.
    repeat (destruct Hin as [<- | Hin]; [reflexivity|]). contradiction.
  - split; [reflexivity|]. split; [reflexivity|].
    intros key Hk. unfold field. rewrite Hk. reflexivity.
Qed.

(** ** Properties of the backend query executor *)

Lemma comprehension_encoded (l : list json) :
  comprehension (fun result => r <- trimmed_result result ;; ret (jsonable_encoder r)) l
  = comprehension trimmed_result l.
Proof.
  induction l as [|x l IH]; [reflexivity|].
  cbn [comprehension]. rewrite IH.
  cbn [bind ret Monad_outcome]. unfold jsonable_encoder.
  destruct (trimmed_result x); reflexivity.
Qed.

Lemma comprehension_Forall2 {A B : Type} (f : A -> outcome B) (l : list A)
    (ys : list B) :
  comprehension f l = Ok ys <-> Forall2 (fun x y => f x = Ok y) l ys.
Proof.
  revert ys. induction l as [|x l IH]; intros ys; cbn [comprehension].
  - split.
    + intros [= <-]. constructor.
    + intros H. inversion H. reflexivity.
  - split.
    + destruct (f x) as [y|] eqn:Hx; [|discriminate].
      destruct (comprehension f l) as [zs|]; [|discriminate].
      intros [= <-]. constructor; [exact Hx|]. apply IH. reflexivity.
    + intros H. inversion H as [|x0 y l0 zs Hx Hrest]; subst.
      rewrite Hx. apply IH in Hrest. rewrite Hrest. reflexivity.
Qed.

Lemma comprehension_raises {A B : Type} (f : A -> outcome B)
    (pre post : list A) (bad : A) (good : list B) (e : exn) :
  comprehension f pre = Ok good -> f bad = Raise e ->
  comprehension f (pre ++ bad :: post) = Raise e.
Proof.
  revert good. induction pre as [|x pre IH]; intros good Hpre Hbad.
  - cbn [app comprehension]. rewrite Hbad. reflexivity.
  - cbn [app comprehension] in *.
    destruct (f x) as [y|]; [|discriminate].
    destruct (comprehension f pre) as [ys|]; [|discriminate].
    rewrite (IH ys eq_refl Hbad). reflexivity.
Qed.

Lemma fetch_run (indexer_id query : string) (w : world) :
  exists w',
    fetch_jackett_results_for_indexer indexer_id query w
    = (Ok (batch indexer_id (net w (get_search_results_url indexer_id)
                                   (query_params query))), w')
    /\ net w' = net w.
Proof.
  unfold fetch_jackett_results_for_indexer, batch, query_params, try_except,
    session_get.
  cbn.
  destruct (answer (net w (get_search_results_url indexer_id)
                      [("apikey", API_KEY); ("Query", Some query)]))
    as [resp|e]; cbn.
  2: { eexists. split; reflexivity. }
  destruct (status resp =? 200)%Z; cbn.
  2: { eexists. split; reflexivity. }
  unfold normalized_results, response_json, lift. cbn.
  destruct (body resp) as [data|e]; cbn.
  2: { eexists. split; reflexivity. }
  destruct (py_get data "Results" (JArr [])) as [results|e]; cbn.
  2: { eexists. split; reflexivity. }
  destruct (py_len results) as [n|e]; cbn.
  2: { eexists. split; reflexivity. }
  destruct (py_iter results) as [items|e]; cbn.
  2: { eexists. split; reflexivity. }
  rewrite comprehension_encoded.
  destruct (comprehension trimmed_result items) as [l|e]; cbn;
    eexists; split; reflexivity.
Qed.

Lemma fetch_batch (indexer_id query : string) (w : world) :
  fst (fetch_jackett_results_for_indexer indexer_id query w)
  = Ok (batch indexer_id (net w (get_search_results_url indexer_id)
                                (query_params query))).
Proof.
  destruct (fetch_run indexer_id query w) as (w' & H & _). rewrite H. reflexivity.
Qed.



(** ** What the service leaves unchanged *)

Lemma keeps_ret {A X : Type} (f : world -> X) (a : A) : keeps f (ret a : M A).
Proof. intros w. reflexivity. Qed.

Lemma keeps_bind {A B X : Type} (f : world -> X) (c : M A) (k : A -> M B) :
  keeps f c -> (forall a, keeps f (k a)) -> keeps f (x <- c ;; k x).
Proof.
  intros Hc Hk w. cbn. specialize (Hc w).
  destruct (c w) as [[a|e] w1]; cbn in *; [|assumption].
  rewrite (Hk a w1). assumption.
Qed.

Lemma keeps_try_except {A X : Type} (f : world -> X) (body : M A)
    (classes : exn -> bool) (handler : exn -> M A) :
  keeps f body -> (forall e, keeps f (handler e)) ->
  keeps f (try_except body classes handler).
Proof.
  intros Hb Hh w. unfold try_except. specialize (Hb w).
  destruct (body w) as [[a|e] w1]; cbn in *; [assumption|].
  destruct (classes e); cbn; [|assumption].
  rewrite (Hh e w1). assumption.
Qed.

(** A primitive keeps a field when running it on any world visibly does. *)
Ltac keeps_primitive :=
  intros ?w;
  cbv [raise lift record logger_info logger_error datetime_now
       read_last_cache_update assign_last_cache_update session_get
       response_json os_path_exists_CACHE_FILE load_CACHE_FILE dump_CACHE_FILE];
  repeat match goal with
         | |- context [match ?x with _ => _ end] => destruct x
         end;
  reflexivity.

Ltac keeps_step :=
  first
    [ assumption
    | apply keeps_ret
    | apply keeps_bind; [|intros ?]
    | apply keeps_try_except; [|intros ?]
    | match goal with
      | |- keeps _ (if ?b then _ else _) => destruct b
      | |- keeps _ (match ?x with _ => _ end) => destruct x
      | |- keeps _ (let _ := _ in _) => cbv zeta
      end
    | solve [keeps_primitive] ].

Lemma keeps_net_get_configured_indexers : keeps net get_configured_indexers.
Proof. unfold get_configured_indexers. repeat keeps_step. Qed.

Lemma keeps_last_cache_update_get_configured_indexers :
  keeps last_cache_update get_configured_indexers.
Proof. unfold get_configured_indexers. repeat keeps_step. Qed.

Lemma keeps_cache_file_get_configured_indexers :
  keeps cache_file get_configured_indexers.
Proof. unfold get_configured_indexers. repeat keeps_step. Qed.

Lemma keeps_write_fault_get_configured_indexers :
  keeps write_fault get_configured_indexers.
Proof. unfold get_configured_indexers. repeat keeps_step. Qed.

Lemma keeps_net_accessor : keeps net get_configured_indexers_from_file.
Proof.
  pose proof keeps_net_get_configured_indexers.
  unfold get_configured_indexers_from_file. repeat keeps_step.
Qed.

Lemma keeps_net_fetch (indexer_id query : string) :
  keeps net (fetch_jackett_results_for_indexer indexer_id query).
Proof.
  intros w. destruct (fetch_run indexer_id query w) as (w' & H & Hn).
  rewrite H. exact Hn.
Qed.

Lemma keeps_net_process_indexer (indexer_id query : string) :
  keeps net (process_indexer indexer_id query).
Proof.
  pose proof (keeps_net_fetch indexer_id query).
  unfold process_indexer. repeat keeps_step.
Qed.

(** ** Properties of the fan-out aggregator *)

Lemma process_indexer_batch (indexer_id query : string) (w : world) :
  fst (process_indexer indexer_id query w)
  = Ok (batch indexer_id (net w (get_search_results_url indexer_id)
                                (query_params query))).
Proof.
  unfold process_indexer, logger_info, datetime_now, record.
  cbn [bind ret Monad_M].
  match goal with
  | |- context [fetch_jackett_results_for_indexer indexer_id query ?w1] =>
      destruct (fetch_run indexer_id query w1) as (w' & H & _); rewrite H
  end.
  reflexivity.
Qed.

Lemma create_tasks_batches (query : string) (ids : list json) (w : world) :
  fst (create_tasks
         (map (fun indexer_id => process_indexer (py_str indexer_id) query) ids) w)
  = map (fun indexer_id =>
           Ok (batch (py_str indexer_id)
                     (net w (get_search_results_url (py_str indexer_id))
                            (query_params query))))
        ids.
Proof.
  revert w. induction ids as [|i ids IH]; intros w; [reflexivity|].
  cbn [map create_tasks].
  pose proof (process_indexer_batch (py_str i) query w) as Hb.
  pose proof (keeps_net_process_indexer (py_str i) query w) as Hn.
  destruct (process_indexer (py_str i) query w) as [r w1].
  cbn [fst snd] in Hb, Hn. subst r.
  specialize (IH w1).
  destruct (create_tasks _ w1) as [rs w2]. cbn [fst] in IH |- *.
  rewrite IH, Hn. reflexivity.
Qed.

Lemma as_completed_map {A B : Type} (f : A -> B) (order : list nat) (l : list A) :
  as_completed order (map f l) = map f (as_completed order l).
Proof.
  unfold as_completed. induction order as [|i order IH]; [reflexivity|].
  cbn [flat_map]. rewrite map_app, IH, nth_error_map.
  destruct (nth_error l i); reflexivity.
Qed.

Lemma as_completed_launch_order {A : Type} (pre l : list A) :
  as_completed (seq (List.length pre) (List.length l)) (pre ++ l)%list = l.
Proof.
  revert pre. induction l as [|x l IH]; intros pre; [reflexivity|].
  cbn [List.length seq]. unfold as_completed in *. cbn [flat_map].
  rewrite nth_error_app2, Nat.sub_diag by lia. cbn [nth_error app].
  f_equal. specialize (IH (pre ++ [x])%list).
  rewrite length_app, Nat.add_comm, <- app_assoc in IH. exact IH.
Qed.

Lemma as_completed_permutation {A : Type} (order : list nat) (l : list A) :
  completion_order order (List.length l) -> Permutation (as_completed order l) l.
Proof.
  intros H. unfold as_completed.
  rewrite (Permutation_flat_map _ H).
  change (Permutation
            (as_completed (seq (List.length (@nil A)) (List.length l)) ([] ++ l)%list) l).
  rewrite as_completed_launch_order. reflexivity.
Qed.

Lemma drain_all_ok (batches : list (list json)) :
  drain (map Ok batches)
  = {| emitted := map sse (List.concat batches); failure := None |}.
Proof.
  induction batches as [|b bs IH]; [reflexivity|].
  cbn [map drain List.concat]. rewrite IH. unfold yield_all. cbn [emitted failure].
  rewrite map_app. reflexivity.
Qed.

Lemma concat_permutation {A : Type} (l l' : list (list A)) :
  Permutation l l' -> Permutation (List.concat l) (List.concat l').
Proof.
  intros H. induction H; cbn [List.concat].
  - reflexivity.
  - apply Permutation_app_head. assumption.
  - rewrite !app_assoc. apply Permutation_app_tail, Permutation_app_comm.
  - etransitivity; eassumption.
Qed.

(** The stream of a search whose registry access returned the list [ids]:
    the batches of the backends, in the order in which they completed. *)
Lemma event_generator_stream (order : list nat) (query : string) (w : world)
    (ids : list json) :
  fst (get_configured_indexers_from_file w) = Ok (JArr ids) ->
  fst (event_generator order query w)
  = {| emitted :=
         map sse
           (List.concat
              (as_completed order
                 (map (fun indexer_id =>
                         batch (py_str indexer_id)
                               (net w (get_search_results_url (py_str indexer_id))
                                      (query_params query)))
                      ids)));
       failure := None |}.
Proof.
  intros Hreg. unfold event_generator.
  pose proof (keeps_net_accessor w) as Hn.
  destruct (get_configured_indexers_from_file w) as [r w1].
  cbn [fst snd] in Hreg, Hn. subst r. cbn [py_iter].
  pose proof (create_tasks_batches query ids w1) as Ht.
  destruct (create_tasks _ w1) as [tasks w2]. cbn [fst] in Ht |- *.
  subst tasks. rewrite Hn.
  rewrite <- (map_map (fun indexer_id =>
                         batch (py_str indexer_id)
                               (net w (get_search_results_url (py_str indexer_id))
                                      (query_params query))) Ok).
  rewrite as_completed_map, drain_all_ok. reflexivity.
Qed.

Lemma batch_succeeds (indexer_id : string) (r : reply) (normalized : list json) :
  succeeds r normalized -> batch indexer_id r = normalized.
Proof.
  intros (resp & d & raws & Ha & Hs & Hb & Hr & Hn).
  unfold batch, normalized_results. rewrite Ha, Hs, Hb.
  cbn [Z.eqb Pos.eqb bind ret Monad_outcome py_get].
  rewrite Hr. cbn [py_len py_iter].
  apply comprehension_Forall2 in Hn. rewrite Hn. reflexivity.
Qed.

Lemma batch_fails (indexer_id : string) (r : reply) :
  fails r ->
  exists err, batch indexer_id r = [error_record err] /\ names_failure indexer_id r err.
Proof.
  unfold names_failure, batch.
  intros [[e Ha] | [(resp & Ha & Hs)
                    | [(resp & e & Ha & Hs & Hb)
                      | (resp & data & Ha & Hs & Hb & Hnot)]]];
    rewrite Ha.
  - eexists. split; [reflexivity|]. right. left. exists e. split; reflexivity.
  - destruct (Z.eqb_spec (status resp) 200); [contradiction|].
    eexists. split; [reflexivity|]. left. exists resp. repeat split. exact n.
  - rewrite Hs, Hb. cbn [Z.eqb Pos.eqb normalized_results bind Monad_outcome].
    eexists. split; [reflexivity|]. right. right. left. exists resp, e.
    repeat split; assumption.
  - rewrite Hs, Hb. cbn [Z.eqb Pos.eqb normalized_results bind Monad_outcome].
    exists ("Exception fetching from indexer " ++ indexer_id ++ ": '"
            ++ type_name data ++ "' object has no attribute 'get'").
    split.
    + destruct data; try reflexivity. exfalso. exact (Hnot fields eq_refl).
    + right. right. right. exists resp, data. repeat split; assumption.
Qed.

Lemma normalized_is_no_error_record (raw out : json) :
  trimmed_result raw = Ok out -> is_error_record out = false.
Proof.
  destruct raw as [| | | | |d]; try discriminate.
  rewrite trimmed_result_dict.
  destruct (create_magnet_link (JObj d)); [|discriminate].
  intros [= <-]. reflexivity.
Qed.

Lemma normalized_hold_no_error_record (raws normalized : list json) :
  comprehension trimmed_result raws = Ok normalized ->
  filter is_error_record normalized = [].
Proof.
  revert normalized. induction raws as [|x raws IH]; intros normalized.
  - intros [= <-]. reflexivity.
  - cbn [comprehension].
    destruct (trimmed_result x) as [y|] eqn:Hx; [|discriminate].
    destruct (comprehension trimmed_result raws) as [ys|]; [|discriminate].
    intros [= <-]. cbn [filter].
    rewrite (normalized_is_no_error_record _ _ Hx). apply IH. reflexivity.
Qed.

Lemma succeeds_no_error_record (r : reply) (normalized : list json) :
  succeeds r normalized -> filter is_error_record normalized = [].
Proof.
  intros (resp & d & raws & _ & _ & _ & _ & Hn).
  apply comprehension_Forall2 in Hn.
  exact (normalized_hold_no_error_record _ _ Hn).
Qed.

Lemma filter_length_permutation {A : Type} (f : A -> bool) (l l' : list A) :
  Permutation l l' -> List.length (filter f l) = List.length (filter f l').
Proof.
  intros H. induction H; cbn [filter].
  - reflexivity.
  - destruct (f x); cbn [List.length]; congruence.
  - destruct (f x), (f y); reflexivity.
  - congruence.
Qed.


(** C8: when the registry access returns the empty list, the search yields
    no event and ends without an exception, whatever the query. *)
Theorem C8_empty_registry (w : world) (order : list nat) (query : string) :
  fst (get_configured_indexers_from_file w) = Ok (JArr []) ->
  fst (search order query w) = {| emitted := []; failure := None |}.
Proof.
  intros Hreg. unfold search.
  rewrite (event_generator_stream order query w [] Hreg).
  cbn [map]. unfold as_completed.
  replace (flat_map _ order) with (@nil (list json)); [reflexivity|].
  induction order as [|i order IH]; [reflexivity|].
  cbn [flat_map]. rewrite <- IH. destruct i; reflexivity.
Qed.

(** ** Properties of the indexer registry cache *)

Lemma get_configured_indexers_listing (w : world) (snapshot : json) :
  listing (net w list_url list_params) snapshot ->
  get_configured_indexers w = (Ok snapshot, snd (session_get list_url list_params w)).
Proof.
  intros (resp & data & items & ids & Ha & Hs & Hb & Hi & Hc & ->).
  unfold get_configured_indexers, try_except, session_get, response_json, lift.
  fold list_url list_params. cbn [bind ret Monad_M fst snd].
  rewrite Ha, Hs, Hb, Hi, Hc. reflexivity.
Qed.

Lemma get_configured_indexers_calls (w : world) :
  upstream_list_calls (snd (get_configured_indexers w))
  = S (upstream_list_calls w).
Proof.
  unfold get_configured_indexers, try_except, session_get, response_json, lift,
    logger_error, record, raise, upstream_list_calls.
  fold list_url list_params. cbn [bind ret Monad_M fst snd].
  destruct (answer (net w list_url list_params)) as [resp|e].
  - destruct (status resp =? 200)%Z.
    + destruct (body resp) as [data|e]; [destruct (py_iter data) as [items|e];
        [destruct (configured_ids items) as [ids|e]|]|];
        try destruct (aiohttp_ClientError e);
        cbn [snd trace filter is_list_call List.length];
        rewrite String.eqb_refl; reflexivity.
    + cbn [aiohttp_ClientError snd trace filter is_list_call List.length].
      rewrite String.eqb_refl. reflexivity.
  - destruct (aiohttp_ClientError e);
      cbn [snd trace filter is_list_call List.length];
      rewrite String.eqb_refl; reflexivity.
Qed.

Lemma accessor_serves_cache (w : world) (content : json) :
  cache_file w = Some (Ok content) ->
  (now w - last_cache_update w < CACHE_DURATION)%Z ->
  get_configured_indexers_from_file w = (Ok content, w).
Proof.
  intros Hfile Hfresh.
  unfold get_configured_indexers_from_file, os_path_exists_CACHE_FILE,
    datetime_now, read_last_cache_update, try_except, load_CACHE_FILE.
  cbn [bind ret Monad_M]. rewrite Hfile.
  apply Z.ltb_lt in Hfresh. rewrite Hfresh. cbn [andb]. rewrite Hfile.
  reflexivity.
Qed.

Lemma logged_fields (lines : list (level * string)) (w : world) :
  last_cache_update (logged lines w) = last_cache_update w
  /\ now (logged lines w) = now w
  /\ cache_file (logged lines w) = cache_file w
  /\ write_fault (logged lines w) = write_fault w
  /\ net (logged lines w) = net w
  /\ upstream_list_calls (logged lines w) = upstream_list_calls w.
Proof.
  repeat split. unfold upstream_list_calls, logged. cbn [trace].
  rewrite filter_app.
  replace (filter is_list_call (map _ lines)) with (@nil event); [reflexivity|].
  induction lines as [|[l m] lines IH]; [reflexivity|exact IH].
Qed.

Lemma accessor_refreshes (w : world) :
  refresh_due w ->
  exists lines,
    get_configured_indexers_from_file w
    = match get_configured_indexers (logged lines w) with
      | (Raise e, w1) => (Raise e, w1)
      | (Ok configured_indexers, w1) =>
          match write_fault w1 with
          | None =>
              (Ok configured_indexers,
               {| last_cache_update := now w1; now := now w1;
                  cache_file := Some (Ok configured_indexers);
                  write_fault := write_fault w1;
                  write_leaves := write_leaves w1; net := net w1;
                  trace := trace w1 |})
          | Some e =>
              if FileNotFoundError_or_JSONDecodeError e then
                (Ok configured_indexers,
                 {| last_cache_update := now w1; now := now w1;
                    cache_file := cache_file w1; write_fault := write_fault w1;
                    write_leaves := write_leaves w1;
                    net := net w1;
                    trace := Log ERROR ("Error saving cache file: " ++ exn_str e)
                             :: trace w1 |})
              else (Raise e, failed_write e w1)
          end
      end.
Proof.
  intros Hdue.
  assert (Htail : forall lines,
    (logger_info
       "Cache is stale or doesn't exist. Fetching configured indexers from Jackett..." ;;
     configured_indexers <- get_configured_indexers ;;
     try_except (dump_CACHE_FILE configured_indexers)
       FileNotFoundError_or_JSONDecodeError
       (fun e => logger_error ("Error saving cache file: " ++ exn_str e)) ;;
     t' <- datetime_now ;;
     assign_last_cache_update t' ;;
     ret configured_indexers) (logged lines w)
    = match get_configured_indexers
              (logged ((INFO, "Cache is stale or doesn't exist. Fetching configured indexers from Jackett...") :: lines) w) with
      | (Raise e, w1) => (Raise e, w1)
      | (Ok configured_indexers, w1) =>
          match write_fault w1 with
          | None =>
              (Ok configured_indexers,
               {| last_cache_update := now w1; now := now w1;
                  cache_file := Some (Ok configured_indexers);
                  write_fault := write_fault w1;
                  write_leaves := write_leaves w1; net := net w1;
                  trace := trace w1 |})
          | Some e =>
              if FileNotFoundError_or_JSONDecodeError e then
                (Ok configured_indexers,
                 {| last_cache_update := now w1; now := now w1;
                    cache_file := cache_file w1; write_fault := write_fault w1;
                    write_leaves := write_leaves w1;
                    net := net w1;
                    trace := Log ERROR ("Error saving cache file: " ++ exn_str e)
                             :: trace w1 |})
              else (Raise e, failed_write e w1)
          end
      end).
  { intros lines.
    unfold logger_info, logger_error, record, try_except, dump_CACHE_FILE,
      datetime_now, assign_last_cache_update.
    cbn [bind ret Monad_M].
    change {| last_cache_update := last_cache_update (logged lines w);
              now := now (logged lines w);
              cache_file := cache_file (logged lines w);
              write_fault := write_fault (logged lines w);
              write_leaves := write_leaves (logged lines w);
              net := net (logged lines w);
              trace := Log INFO "Cache is stale or doesn't exist. Fetching configured indexers from Jackett..."
                       :: trace (logged lines w) |}
      with (logged ((INFO, "Cache is stale or doesn't exist. Fetching configured indexers from Jackett...") :: lines) w).
    destruct (get_configured_indexers _) as [[ci|e] w1]; [|reflexivity].
    destruct (write_fault w1) as [e|] eqn:Hwf.
    + destruct (FileNotFoundError_or_JSONDecodeError e) eqn:He.
      * destruct e; try discriminate He; cbn; rewrite ?Hwf; reflexivity.
      * reflexivity.
    + cbn. rewrite ?Hwf. reflexivity. }
  assert (Hw : logged [] w = w) by (destruct w; reflexivity).
  unfold get_configured_indexers_from_file at 1.
  unfold os_path_exists_CACHE_FILE, datetime_now at 1, read_last_cache_update,
    load_CACHE_FILE.
  cbn [bind ret Monad_M].
  destruct Hdue as [Hnone | [Hstale | (e & Hfile & Hcaught)]].
  - rewrite Hnone. cbn [andb].
    eexists. rewrite <- Hw at 1. apply Htail.
  - apply Z.ltb_ge in Hstale. rewrite Hstale, andb_false_r.
    eexists. rewrite <- Hw at 1. apply Htail.
  - rewrite Hfile. cbn [andb].
    destruct (now w - last_cache_update w <? CACHE_DURATION)%Z.
    + unfold try_except at 1. cbn [bind ret Monad_M]. rewrite Hfile, Hcaught.
      unfold logger_error at 1, record at 1.
      eexists. apply (Htail [(ERROR, "Error reading cache file: " ++ exn_str e)]).
    + eexists. rewrite <- Hw at 1. apply Htail.
Qed.

Lemma accessor_refresh_calls (w : world) :
  refresh_due w ->
  upstream_list_calls (snd (get_configured_indexers_from_file w))
  = S (upstream_list_calls w).
Proof.
  intros Hdue. destruct (accessor_refreshes w Hdue) as [lines ->].
  pose proof (get_configured_indexers_calls (logged lines w)) as Hc.
  destruct (logged_fields lines w) as (_ & _ & _ & _ & _ & Hl). rewrite Hl in Hc.
  destruct (get_configured_indexers (logged lines w)) as [[ci|e] w1];
    cbn [snd] in *; [|exact Hc].
  destruct (write_fault w1) as [e|];
    [destruct (FileNotFoundError_or_JSONDecodeError e)|]; exact Hc.
Qed.

Lemma accessor_refresh_listing (w : world) (snapshot : json) :
  refresh_due w ->
  listing (net w list_url list_params) snapshot ->
  write_fault w = None ->
  exists tr,
    get_configured_indexers_from_file w
    = (Ok snapshot,
       {| last_cache_update := now w + elapsed (net w list_url list_params);
          now := now w + elapsed (net w list_url list_params);
          cache_file := Some (Ok snapshot);
          write_fault := None;
          write_leaves := write_leaves w; net := net w; trace := tr |}).
Proof.
  intros Hdue Hlist Hwf. destruct (accessor_refreshes w Hdue) as [lines ->].
  rewrite (get_configured_indexers_listing (logged lines w) snapshot Hlist).
  unfold session_get. cbn [snd write_fault logged now net]. rewrite Hwf.
  eexists. reflexivity.
Qed.

(** C4 (amended): starting from a state in which the accessor does not
    serve the cache file, with the upstream list call succeeding and the
    cache file writable, the first call performs one upstream list call; a
    second call less than 30 minutes after the first one finished returns
    the same snapshot and performs none, one in total; a second call 30
    minutes or more after it performs another, two in total. *)
Theorem C4_upstream_calls (w : world) (snapshot : json) (d : Z) :
  refresh_due w ->
  listing (net w list_url list_params) snapshot ->
  write_fault w = None ->
  let w1 := snd (get_configured_indexers_from_file w) in
  let second := get_configured_indexers_from_file (wait d w1) in
  fst (get_configured_indexers_from_file w) = Ok snapshot
  /\ upstream_list_calls w1 = S (upstream_list_calls w)
  /\ ((d < CACHE_DURATION)%Z ->
      fst second = Ok snapshot
      /\ upstream_list_calls (snd second) = S (upstream_list_calls w))
  /\ ((CACHE_DURATION <= d)%Z ->
      upstream_list_calls (snd second) = S (S (upstream_list_calls w))).
Proof.
  intros Hdue Hlist Hwf. cbv zeta.
  pose proof (accessor_refresh_calls w Hdue) as Hcalls.
  destruct (accessor_refresh_listing w snapshot Hdue Hlist Hwf) as [tr Hrun].
  rewrite Hrun in *. cbn [fst snd] in *.
  split; [reflexivity|]. split; [exact Hcalls|]. split.
  - intros Hd. rewrite accessor_serves_cache with (content := snapshot).
    + split; [reflexivity|exact Hcalls].
    + reflexivity.
    + cbn [wait now last_cache_update]. lia.
  - intros Hd. rewrite accessor_refresh_calls.
    + f_equal. exact Hcalls.
    + right. left. cbn [wait now last_cache_update]. lia.
Qed.

(** C5 (amended): at process start the TTL clock is set to the start time.
    A first use of the accessor less than 30 minutes after the start
    serves a readable cache file as it is, without any upstream call or
    other effect, whatever the age of the file; it refreshes from upstream
    when there is no cache file or 30 minutes or more have passed since the
    start. *)
Theorem C5_first_use_after_restart (t d : Z) (file : option (outcome json))
    (fault : option exn) (network : string -> params -> reply) :
  let w := wait d (startup t file fault network) in
  (forall content,
      file = Some (Ok content) -> (d < CACHE_DURATION)%Z ->
      get_configured_indexers_from_file w = (Ok content, w))
  /\ (file = None \/ (CACHE_DURATION <= d)%Z ->
      upstream_list_calls (snd (get_configured_indexers_from_file w)) = 1%nat).
Proof.
  cbv zeta. split.
  - intros content Hfile Hd. apply accessor_serves_cache.
    + exact Hfile.
    + cbn [wait startup now last_cache_update]. lia.
  - intros Hdue. rewrite accessor_refresh_calls; [reflexivity|].
    destruct Hdue as [Hnone | Hd].
    + left. exact Hnone.
    + right. left. cbn [wait startup now last_cache_update]. lia.
Qed.

Lemma get_indexers_run (w : world) (snapshot : json) :
  listing (net w list_url list_params) snapshot ->
  get_indexers w
  = let w1 := snd (session_get list_url list_params w) in
    match write_fault w with
    | None =>
        (Ok (JObj [("indexers", snapshot)]),
         {| last_cache_update := last_cache_update w1; now := now w1;
            cache_file := Some (Ok snapshot); write_fault := None;
            write_leaves := write_leaves w1;
            net := net w1; trace := trace w1 |})
    | Some e =>
        if FileNotFoundError_or_JSONDecodeError e then
          (Ok (JObj [("indexers", snapshot)]),
           {| last_cache_update := last_cache_update w1; now := now w1;
              cache_file := cache_file w1; write_fault := Some e;
              write_leaves := write_leaves w1;
              net := net w1;
              trace := Log ERROR ("Error saving cache file: " ++ exn_str e)
                       :: trace w1 |})
        else (Raise e, failed_write e w1)
    end.
Proof.
  intros Hlist. unfold get_indexers. cbn [bind ret Monad_M].
  rewrite (get_configured_indexers_listing w snapshot Hlist).
  unfold try_except, dump_CACHE_FILE, session_get, logger_error, record.
  cbn [snd write_fault].
  destruct (write_fault w) as [e|] eqn:Hwf; [|reflexivity].
  destruct (FileNotFoundError_or_JSONDecodeError e) eqn:He.
  - destruct e; try discriminate He; cbn; rewrite ?Hwf; reflexivity.
  - reflexivity.
Qed.

(** C6: what a failed write of the cache file does to a refresh.  When
    opening the file for writing raises an exception other than
    FileNotFoundError and JSONDecodeError (a PermissionError, say), the
    exception leaves the accessor and the /indexers handler: no snapshot is
    returned and the accessor's timestamp stays as it was.  Only the two
    caught classes are logged with the snapshot still returned. *)
Theorem C6_cache_write_failure (w : world) (snapshot : json) (e : exn) :
  refresh_due w ->
  listing (net w list_url list_params) snapshot ->
  write_fault w = Some e ->
  (FileNotFoundError_or_JSONDecodeError e = false ->
     fst (get_configured_indexers_from_file w) = Raise e
     /\ last_cache_update (snd (get_configured_indexers_from_file w))
        = last_cache_update w
     /\ fst (get_indexers w) = Raise e)
  /\ (FileNotFoundError_or_JSONDecodeError e = true ->
      fst (get_configured_indexers_from_file w) = Ok snapshot
      /\ In (Log ERROR ("Error saving cache file: " ++ exn_str e))
            (trace (snd (get_configured_indexers_from_file w)))
      /\ fst (get_indexers w) = Ok (JObj [("indexers", snapshot)])).
Proof.
  intros Hdue Hlist Hwf.
  rewrite (get_indexers_run w snapshot Hlist). cbv zeta. rewrite Hwf.
  destruct (accessor_refreshes w Hdue) as [lines ->].
  rewrite (get_configured_indexers_listing (logged lines w) snapshot Hlist).
  unfold session_get. cbn [snd write_fault logged]. rewrite Hwf.
  split; intros ->; cbn [fst snd last_cache_update trace].
  - repeat split.
  - split; [reflexivity|]. split; [left; reflexivity|reflexivity].
Qed.

Lemma configured_ids_cons (x : json) (rest : list json) :
  configured_ids (x :: rest)
  = match py_get x "configured" (JBool false) with
    | Raise e => Raise e
    | Ok c =>
        if truthy c then
          match py_item x "id" with
          | Raise e => Raise e
          | Ok y => match configured_ids rest with
                    | Raise e => Raise e
                    | Ok ys => Ok (y :: ys)
                    end
          end
        else configured_ids rest
    end.
Proof.
  unfold configured_ids. cbn [comprehension_if bind ret Monad_outcome].
  destruct (py_get x "configured" (JBool false)) as [c|]; [|reflexivity].
  destruct (truthy c); reflexivity.
Qed.

Lemma configured_ids_skips (pre post : list json) (entry : list (string * json)) :
  dict_get "configured" entry = None ->
  configured_ids (pre ++ JObj entry :: post) = configured_ids (pre ++ post).
Proof.
  intros Hc. induction pre as [|x pre IH].
  - cbn [app]. rewrite configured_ids_cons. cbn [py_get]. rewrite Hc. reflexivity.
  - cbn [app]. rewrite !configured_ids_cons, IH. reflexivity.
Qed.

Lemma configured_ids_missing_id (pre post : list json)
    (entry : list (string * json)) (c : json) :
  dict_get "configured" entry = Some c -> truthy c = true ->
  dict_get "id" entry = None ->
  (forall ids, configured_ids pre = Ok ids ->
               configured_ids (pre ++ JObj entry :: post) = Raise (KeyError "id"))
  /\ (forall ids, configured_ids (pre ++ JObj entry :: post) <> Ok ids).
Proof.
  intros Hc Ht Hid.
  assert (Hentry : configured_ids (JObj entry :: post) = Raise (KeyError "id")).
  { rewrite configured_ids_cons. cbn [py_get py_item]. rewrite Hc, Ht, Hid.
    reflexivity. }
  induction pre as [|x pre [IH1 IH2]].
  - cbn [app]. rewrite Hentry. split; intros; [reflexivity|discriminate].
  - cbn [app]. rewrite !configured_ids_cons.
    destruct (py_get x "configured" (JBool false)) as [cx|];
      [|split; intros; discriminate].
    destruct (truthy cx).
    + destruct (py_item x "id") as [y|]; [|split; intros; discriminate].
      split.
      * intros ids H. destruct (configured_ids pre) as [ys|]; [|discriminate].
        rewrite (IH1 ys eq_refl). reflexivity.
      * intros ids H.
        destruct (configured_ids (pre ++ JObj entry :: post)) as [ys|] eqn:E;
          [|discriminate].
        exact (IH2 ys eq_refl).
    + split; assumption.
Qed.

Lemma get_configured_indexers_raises (w : world) (resp : response)
    (items : list json) (e : exn) :
  answer (net w list_url list_params) = Ok resp ->
  status resp = 200%Z ->
  body resp = Ok (JArr items) ->
  configured_ids items = Raise e ->
  aiohttp_ClientError e = false ->
  get_configured_indexers w = (Raise e, snd (session_get list_url list_params w)).
Proof.
  intros Ha Hs Hb Hc He.
  unfold get_configured_indexers, try_except, session_get, response_json, lift.
  fold list_url list_params. cbn [bind ret Monad_M fst snd].
  rewrite Ha, Hs, Hb. cbn [Z.eqb Pos.eqb py_iter]. rewrite Hc, He. reflexivity.
Qed.

(** C9: in the upstream list, an entry without a [configured] field is
    skipped like one that is not configured; an entry whose [configured] is
    true but that has no [id] makes the collection of the ids fail: with
    well-formed entries before it, [get_configured_indexers] raises
    KeyError('id'), which is neither caught nor turned into an
    HTTPException, and so do the /indexers handler and a refreshing
    accessor, which then leaves the cache file and its timestamp alone. *)
Theorem C9_registry_entries (pre post : list json) (entry : list (string * json)) :
  (dict_get "configured" entry = None ->
     configured_ids (pre ++ JObj entry :: post) = configured_ids (pre ++ post)
     /\ forall w resp ids,
          answer (net w list_url list_params) = Ok resp ->
          status resp = 200%Z ->
          body resp = Ok (JArr (pre ++ JObj entry :: post)) ->
          configured_ids (pre ++ post) = Ok ids ->
          fst (get_configured_indexers w) = Ok (JArr ids))
  /\ (dict_get "configured" entry = Some (JBool true) ->
      dict_get "id" entry = None ->
      (forall ids, configured_ids (pre ++ JObj entry :: post) <> Ok ids)
      /\ forall w resp ids,
           answer (net w list_url list_params) = Ok resp ->
           status resp = 200%Z ->
           body resp = Ok (JArr (pre ++ JObj entry :: post)) ->
           configured_ids pre = Ok ids ->
           fst (get_configured_indexers w) = Raise (KeyError "id")
           /\ fst (get_indexers w) = Raise (KeyError "id")
           /\ (refresh_due w ->
               let after := get_configured_indexers_from_file w in
               fst after = Raise (KeyError "id")
               /\ cache_file (snd after) = cache_file w
               /\ last_cache_update (snd after) = last_cache_update w)).
Proof.
  split.
  - intros Hc. pose proof (configured_ids_skips pre post entry Hc) as Hskip.
    split; [exact Hskip|].
    intros w resp ids Ha Hs Hb Hids.
    rewrite (get_configured_indexers_listing w (JArr ids)); [reflexivity|].
    exists resp, (JArr (pre ++ JObj entry :: post)), (pre ++ JObj entry :: post)%list, ids.
    rewrite Hskip. repeat split; assumption.
  - intros Hc Hid.
    destruct (configured_ids_missing_id pre post entry (JBool true) Hc eq_refl Hid)
      as [Hraise Hnever].
    split; [exact Hnever|].
    intros w resp ids Ha Hs Hb Hpre.
    assert (Hrun : forall w0, net w0 = net w ->
              get_configured_indexers w0
              = (Raise (KeyError "id"), snd (session_get list_url list_params w0))).
    { intros w0 Hnet.
      apply get_configured_indexers_raises
        with (resp := resp) (items := (pre ++ JObj entry :: post)%list).
      - rewrite Hnet. exact Ha.
      - exact Hs.
      - exact Hb.
      - exact (Hraise ids Hpre).
      - reflexivity. }
    split; [rewrite (Hrun w eq_refl); reflexivity|]. split.
    + unfold get_indexers. cbn [bind ret Monad_M]. rewrite (Hrun w eq_refl).
      reflexivity.
    + intros Hdue. cbv zeta.
      destruct (accessor_refreshes w Hdue) as [lines ->].
      rewrite (Hrun (logged lines w) eq_refl). repeat split.
Qed.

(** C10: the /indexers handler never touches the accessor's timestamp: after
    it [last_cache_update] is what it was, so whether a later moment counts
    as fresh is unchanged; with the upstream list call succeeding and the
    cache file writable it does write the new snapshot to the cache file.
    The accessor sets the timestamp to the current time whenever it
    refreshes and returns, and leaves it alone when it serves the cache
    file. *)
Theorem C10_indexers_route_keeps_timestamp (w : world) :
  last_cache_update (snd (get_indexers w)) = last_cache_update w
  /\ (forall t,
        (t - last_cache_update (snd (get_indexers w)) <? CACHE_DURATION)%Z
        = (t - last_cache_update w <? CACHE_DURATION)%Z)
  /\ (forall snapshot,
        listing (net w list_url list_params) snapshot ->
        write_fault w = None ->
        fst (get_indexers w) = Ok (JObj [("indexers", snapshot)])
        /\ cache_file (snd (get_indexers w)) = Some (Ok snapshot))
  /\ (forall snapshot,
        refresh_due w ->
        fst (get_configured_indexers_from_file w) = Ok snapshot ->
        last_cache_update (snd (get_configured_indexers_from_file w))
        = now (snd (get_configured_indexers_from_file w)))
  /\ (forall content,
        cache_file w = Some (Ok content) ->
        (now w - last_cache_update w < CACHE_DURATION)%Z ->
        last_cache_update (snd (get_configured_indexers_from_file w))
        = last_cache_update w).
Proof.
  assert (Hkeep : keeps last_cache_update get_indexers).
  { pose proof keeps_last_cache_update_get_configured_indexers.
    unfold get_indexers. repeat keeps_step. }
  split; [apply Hkeep|]. split; [intros t; rewrite (Hkeep w); reflexivity|].
  split; [|split].
  - intros snapshot Hlist Hwf.
    rewrite (get_indexers_run w snapshot Hlist). cbv zeta. rewrite Hwf.
    split; reflexivity.
  - intros snapshot Hdue.
    destruct (accessor_refreshes w Hdue) as [lines ->].
    destruct (get_configured_indexers (logged lines w)) as [[ci|e] w1];
      [|discriminate].
    destruct (write_fault w1) as [e|];
      [destruct (FileNotFoundError_or_JSONDecodeError e)|];
      try discriminate; reflexivity.
  - intros content Hfile Hfresh.
    rewrite (accessor_serves_cache w content Hfile Hfresh). reflexivity.
Qed.

(** ** Further properties of the result normalizer *)

(** X1: a magnet URI that the backend supplies (any value other than null)
    becomes the Link as it is, whatever the other fields hold; normalization
    then succeeds even when the info-hash is not a string. *)
Theorem X1_magnet_uri_verbatim (d : list (string * json)) :
  is_not_None (field "MagnetUri" d) = true ->
  create_magnet_link (JObj d) = Ok (field "MagnetUri" d)
  /\ exists out, trimmed_result (JObj d) = Ok (JObj out)
                 /\ dict_get "Link" out = Some (field "MagnetUri" d).
Proof.
  intros H.
  assert (Hl : create_magnet_link (JObj d) = Ok (field "MagnetUri" d)).
  { rewrite create_magnet_link_dict, H. reflexivity. }
  split; [exact Hl|].
  rewrite trimmed_result_dict, Hl. eexists. split; reflexivity.
Qed.

(** X2: without a magnet URI, the Link falls back to the torrent URL as
    soon as the torrent URL or the info-hash is missing: it is the input's
    Link field, null when that is absent, and an info-hash alone is not
    turned into a magnet link. *)
Theorem X2_link_falls_back_to_torrent_url (d : list (string * json)) :
  field "MagnetUri" d = JNull ->
  field "Link" d = JNull \/ field "InfoHash" d = JNull ->
  create_magnet_link (JObj d) = Ok (field "Link" d)
  /\ exists out, trimmed_result (JObj d) = Ok (JObj out)
                 /\ dict_get "Link" out = Some (field "Link" d).
Proof.
  intros Hm Hmissing.
  assert (Hl : create_magnet_link (JObj d) = Ok (field "Link" d)).
  { rewrite create_magnet_link_dict, Hm. cbn [is_not_None].
    destruct Hmissing as [H | H]; rewrite H; cbn [is_not_None andb].
    - reflexivity.
    - rewrite andb_false_r. reflexivity. }
  split; [exact Hl|].
  rewrite trimmed_result_dict, Hl. eexists. split; reflexivity.
Qed.

(** X3: the two ways normalization fails, and no other.  A raw result
    that is not a dict raises AttributeError for the missing method get.  A
    dict raises exactly when it has no magnet URI, has a torrent URL and has
    an info-hash that is not a string: the AttributeError then names the
    missing method lower of the info-hash. *)
Theorem X3_normalization_failures (d : list (string * json)) :
  (link_resolvable d = false ->
     trimmed_result (JObj d) = Raise (no_attribute (field "InfoHash" d) "lower"))
  /\ (forall e, trimmed_result (JObj d) = Raise e -> link_resolvable d = false)
  /\ (forall raw, (forall d', raw <> JObj d') ->
                  trimmed_result raw = Raise (no_attribute raw "get")).
Proof.
  split; [|split].
  - intros Hres. rewrite trimmed_result_dict, create_magnet_link_dict.
    unfold link_resolvable in Hres.
    destruct (is_not_None (field "MagnetUri" d)); [discriminate|].
    destruct (is_not_None (field "Link" d)); [|discriminate].
    destruct (field "InfoHash" d); cbn in Hres; try discriminate; reflexivity.
  - intros e He. destruct (link_resolvable d) eqn:Hres; [|reflexivity].
    destruct (create_magnet_link_total d Hres) as [link Hlink].
    rewrite trimmed_result_dict, Hlink in He. discriminate.
  - intros raw Hnot. destruct raw; try reflexivity.
    exfalso. exact (Hnot fields eq_refl).
Qed.

(** ** Further properties of the backend query executor *)

(** X4: one raw result that cannot be normalized spoils the batch of its
    backend.  On a 200 response whose Results hold a record on which the
    normalizer raises, the executor returns no normalized result at all,
    not even for the records before it, but the single error record naming
    the backend and the exception. *)
Theorem X4_bad_record_spoils_batch (indexer_id query : string) (w : world)
    (resp : response) (d : list (string * json)) (pre post good : list json)
    (bad : json) (e : exn) :
  answer (net w (get_search_results_url indexer_id) (query_params query)) = Ok resp ->
  status resp = 200%Z ->
  body resp = Ok (JObj d) ->
  dict_get "Results" d = Some (JArr (pre ++ bad :: post)) ->
  comprehension trimmed_result pre = Ok good ->
  trimmed_result bad = Raise e ->
  fst (fetch_jackett_results_for_indexer indexer_id query w)
  = Ok [JObj [("error", JStr ("Exception fetching from indexer " ++ indexer_id
                               ++ ": " ++ exn_str e))]].
Proof.
  intros Ha Hs Hb Hr Hpre Hbad. rewrite fetch_batch. unfold batch.
  rewrite Ha, Hs, Hb. cbn [Z.eqb Pos.eqb].
  unfold normalized_results. cbn [bind ret Monad_outcome py_get]. rewrite Hr.
  cbn [py_len py_iter].
  rewrite (comprehension_raises trimmed_result pre post bad good e Hpre Hbad).
  reflexivity.
Qed.

(** X5: a 200 response whose body is not what the executor expects gives
    one error record, not an empty batch: a body that is not a JSON object
    fails on the method get, and a Results entry that is present but null, a
    number or a boolean fails on len. *)
Theorem X5_unexpected_body_is_an_error_record (indexer_id query : string)
    (w : world) (resp : response) (data : json) :
  answer (net w (get_search_results_url indexer_id) (query_params query)) = Ok resp ->
  status resp = 200%Z ->
  body resp = Ok data ->
  let returned := fst (fetch_jackett_results_for_indexer indexer_id query w) in
  ((forall d, data <> JObj d) ->
     returned
     = Ok [JObj [("error", JStr ("Exception fetching from indexer " ++ indexer_id
                                  ++ ": '" ++ type_name data
                                  ++ "' object has no attribute 'get'"))]])
  /\ (forall d v,
        data = JObj d -> dict_get "Results" d = Some v ->
        v = JNull \/ (exists b, v = JBool b) \/ (exists z, v = JNum z) ->
        returned
        = Ok [JObj [("error", JStr ("Exception fetching from indexer " ++ indexer_id
                                     ++ ": object of type '" ++ type_name v
                                     ++ "' has no len()"))]]).
Proof.
  intros Ha Hs Hb. cbv zeta. rewrite fetch_batch. unfold batch.
  rewrite Ha, Hs, Hb. cbn [Z.eqb Pos.eqb]. unfold normalized_results.
  cbn [bind ret Monad_outcome]. split.
  - intros Hnot. destruct data; try reflexivity.
    exfalso. exact (Hnot fields eq_refl).
  - intros d v -> Hr Hv. cbn [py_get]. rewrite Hr.
    destruct Hv as [-> | [[b ->] | [z ->]]]; reflexivity.
Qed.

Lemma fetch_requests (indexer_id query : string) (w : world) :
  requests (trace (snd (fetch_jackett_results_for_indexer indexer_id query w)))
  = (get_search_results_url indexer_id, query_params query) :: requests (trace w).
Proof.
  unfold fetch_jackett_results_for_indexer, query_params, try_except,
    session_get, response_json, lift, logger_info, logger_error, record.
  cbn [bind ret Monad_M].
  destruct (answer (net w (get_search_results_url indexer_id)
                      [("apikey", API_KEY); ("Query", Some query)]))
    as [resp|e]; [|reflexivity].
  destruct (status resp =? 200)%Z; [|reflexivity].
  destruct (body resp) as [data|e]; [|reflexivity].
  destruct (py_get data "Results" (JArr [])) as [results|e]; [|reflexivity].
  destruct (py_len results) as [n|e]; [|reflexivity].
  destruct (py_iter results) as [items|e]; [|reflexivity].
  destruct (comprehension _ items) as [l|e]; reflexivity.
Qed.

Lemma process_indexer_requests (indexer_id query : string) (w : world) :
  requests (trace (snd (process_indexer indexer_id query w)))
  = (get_search_results_url indexer_id, query_params query) :: requests (trace w).
Proof.
  unfold process_indexer, logger_info, datetime_now, record.
  cbn [bind ret Monad_M].
  match goal with
  | |- context [fetch_jackett_results_for_indexer indexer_id query ?w1] =>
      pose proof (fetch_requests indexer_id query w1) as Hr;
      destruct (fetch_run indexer_id query w1) as (w' & H & _);
      rewrite H in Hr |- *
  end.
  exact Hr.
Qed.

Lemma keeps_registry_process_indexer (indexer_id query : string) :
  keeps cache_file (process_indexer indexer_id query)
  /\ keeps last_cache_update (process_indexer indexer_id query).
Proof.
  split; unfold process_indexer, fetch_jackett_results_for_indexer;
    repeat keeps_step.
Qed.

(** X6: one call of the executor is one attempt.  [process_indexer] sends
    exactly one request, to the results URL of its backend with the API key
    and the query, whatever the outcome, returns the batch of
    [fetch_jackett_results_for_indexer] unchanged, and touches neither the
    cache file nor the registry timestamp. *)
Theorem X6_one_request_per_executor_call (indexer_id query : string) (w : world) :
  let after := process_indexer indexer_id query w in
  requests (trace (snd after))
  = (get_search_results_url indexer_id,
     [("apikey", API_KEY); ("Query", Some query)]) :: requests (trace w)
  /\ fst after = fst (fetch_jackett_results_for_indexer indexer_id query w)
  /\ cache_file (snd after) = cache_file w
  /\ last_cache_update (snd after) = last_cache_update w.
Proof.
  cbv zeta. destruct (keeps_registry_process_indexer indexer_id query) as [Hc Hl].
  split; [apply process_indexer_requests|]. split.
  - rewrite process_indexer_batch, fetch_batch. reflexivity.
  - split; [apply Hc|apply Hl].
Qed.

Lemma append_cancel_l (p a b : string) : p ++ a = p ++ b -> a = b.
Proof.
  induction p as [|c p IH]; cbn [append]; intros H; [exact H|].
  injection H as H. exact (IH H).
Qed.

Lemma append_length (a b : string) :
  String.length (a ++ b) = (String.length a + String.length b)%nat.
Proof.
  induction a as [|c a IH]; cbn [append String.length]; [reflexivity|].
  rewrite IH. reflexivity.
Qed.

Lemma append_cancel_r (a b s : string) : a ++ s = b ++ s -> a = b.
Proof.
  revert b. induction a as [|c a IH]; intros [|c' b] H.
  - reflexivity.
  - apply (f_equal String.length) in H.
    cbn [append String.length] in H. rewrite append_length in H. lia.
  - apply (f_equal String.length) in H.
    cbn [append String.length] in H. rewrite append_length in H. lia.
  - cbn [append] in H. injection H as -> H. rewrite (IH b H). reflexivity.
Qed.

(** X7: different backends are queried at different URLs: the results URL
    determines the indexer id it was built from. *)
Theorem X7_results_url_injective (a b : string) :
  get_search_results_url a = get_search_results_url b -> a = b.
Proof.
  unfold get_search_results_url. intros H.
  apply append_cancel_l, append_cancel_l in H.
  exact (append_cancel_r a b "/results" H).
Qed.

(** ** Further properties of the upstream list call *)

Lemma get_configured_indexers_net (w0 w : world) :
  net w0 = net w ->
  fst (get_configured_indexers w0) = fst (get_configured_indexers w).
Proof.
  intros Hnet.
  unfold get_configured_indexers, try_except, session_get, response_json, lift,
    logger_error, record, raise.
  cbn [bind ret Monad_M]. rewrite Hnet.
  destruct (answer (net w _ _)) as [resp|e].
  - destruct (status resp =? 200)%Z; [|reflexivity].
    destruct (body resp) as [data|e]; [destruct (py_iter data) as [items|e];
      [destruct (configured_ids items) as [ids|e]|]|];
      try destruct (aiohttp_ClientError e); reflexivity.
  - destruct (aiohttp_ClientError e); reflexivity.
Qed.

Lemma get_indexers_propagates (w : world) (e : exn) :
  fst (get_configured_indexers w) = Raise e -> fst (get_indexers w) = Raise e.
Proof.
  intros H. unfold get_indexers. cbn [bind ret Monad_M].
  destruct (get_configured_indexers w) as [[ci|e'] w1]; cbn [fst] in H;
    [discriminate|].
  injection H as ->. reflexivity.
Qed.

Lemma accessor_propagates (w : world) (e : exn) :
  refresh_due w ->
  fst (get_configured_indexers w) = Raise e ->
  let after := get_configured_indexers_from_file w in
  fst after = Raise e
  /\ cache_file (snd after) = cache_file w
  /\ last_cache_update (snd after) = last_cache_update w.
Proof.
  intros Hdue H. cbv zeta.
  destruct (accessor_refreshes w Hdue) as [lines ->].
  rewrite <- (get_configured_indexers_net (logged lines w) w eq_refl) in H.
  pose proof (keeps_cache_file_get_configured_indexers (logged lines w)) as Hc.
  pose proof (keeps_last_cache_update_get_configured_indexers (logged lines w)) as Hl.
  destruct (get_configured_indexers (logged lines w)) as [[ci|e'] w1];
    cbn [fst snd] in *; [discriminate|].
  injection H as ->. repeat split; assumption.
Qed.

(** X8: an upstream list call answered with a status other than 200 is a
    hard failure.  [get_configured_indexers] logs the message
    "Jackett API Error: <status> - <reason>" and raises an HTTPException
    carrying the upstream status and that message; the /indexers handler
    raises it too, and so does a refreshing accessor, which leaves the cache
    file and its timestamp as they were. *)
Theorem X8_upstream_rejection (w : world) (resp : response) :
  answer (net w list_url list_params) = Ok resp ->
  status resp <> 200%Z ->
  let message := "Jackett API Error: " ++ str_of_Z (status resp) ++ " - "
                 ++ reason resp in
  let raised := HTTPException (status resp) message in
  fst (get_configured_indexers w) = Raise raised
  /\ trace (snd (get_configured_indexers w))
     = Log ERROR message :: Request list_url list_params :: trace w
  /\ fst (get_indexers w) = Raise raised
  /\ (refresh_due w ->
      fst (get_configured_indexers_from_file w) = Raise raised
      /\ cache_file (snd (get_configured_indexers_from_file w)) = cache_file w
      /\ last_cache_update (snd (get_configured_indexers_from_file w))
         = last_cache_update w).
Proof.
  intros Ha Hs. cbv zeta.
  assert (Hrun : get_configured_indexers w
                 = (Raise (HTTPException (status resp)
                             ("Jackett API Error: " ++ str_of_Z (status resp)
                              ++ " - " ++ reason resp)),
                    snd (logger_error
                           ("Jackett API Error: " ++ str_of_Z (status resp)
                            ++ " - " ++ reason resp)
                           (snd (session_get list_url list_params w))))).
  { unfold get_configured_indexers, try_except, session_get, logger_error,
      record, raise.
    fold list_url list_params. cbn [bind ret Monad_M fst snd]. rewrite Ha.
    destruct (Z.eqb_spec (status resp) 200); [contradiction|]. reflexivity. }
  split; [rewrite Hrun; reflexivity|]. split; [rewrite Hrun; reflexivity|].
  split.
  - apply get_indexers_propagates. rewrite Hrun. reflexivity.
  - intros Hdue. apply (accessor_propagates w _ Hdue). rewrite Hrun. reflexivity.
Qed.

(** X9: what becomes of an exception of the upstream list call, raised by
    the request or by decoding the body of a 200 response.  An
    aiohttp.ClientError is replaced by an HTTPException with status 500 and
    the detail "Error connecting to Jackett API: <text>"; any other
    exception, such as a timeout or a JSONDecodeError, leaves
    [get_configured_indexers] as it is. *)
Theorem X9_upstream_exception (w : world) (e : exn) :
  answer (net w list_url list_params) = Raise e
  \/ (exists resp, answer (net w list_url list_params) = Ok resp
                   /\ status resp = 200%Z /\ body resp = Raise e) ->
  fst (get_configured_indexers w)
  = Raise (if aiohttp_ClientError e
           then HTTPException 500 ("Error connecting to Jackett API: " ++ exn_str e)
           else e).
Proof.
  intros H.
  unfold get_configured_indexers, try_except, session_get, response_json, lift,
    logger_error, record, raise.
  fold list_url list_params. cbn [bind ret Monad_M fst snd].
  destruct H as [Ha | (resp & Ha & Hs & Hb)]; rewrite Ha.
  - destruct (aiohttp_ClientError e); reflexivity.
  - rewrite Hs, Hb. cbn [Z.eqb Pos.eqb].
    destruct (aiohttp_ClientError e); reflexivity.
Qed.

Lemma configured_ids_usable (x : json) (rest : list json) :
  entry_usable x = true ->
  configured_ids (x :: rest)
  = match configured_ids rest with
    | Raise e => Raise e
    | Ok ys => Ok (if entry_configured x then entry_id x :: ys else ys)
    end.
Proof.
  intros Hx. rewrite configured_ids_cons.
  destruct x as [| | | | |d]; try discriminate.
  cbn [py_get py_item entry_configured entry_id entry_usable] in *.
  destruct (truthy match dict_get "configured" d with
                   | Some c => c
                   | None => JBool false
                   end).
  - cbn [negb orb] in Hx. unfold field.
    destruct (dict_get "id" d); [reflexivity|discriminate].
  - destruct (configured_ids rest); reflexivity.
Qed.

Lemma configured_ids_unusable (x : json) (rest : list json) :
  entry_usable x = false -> exists e, configured_ids (x :: rest) = Raise e.
Proof.
  intros Hx. rewrite configured_ids_cons.
  destruct x as [| | | | |d]; try (eexists; reflexivity).
  cbn [py_get py_item entry_configured entry_usable] in *.
  destruct (truthy match dict_get "configured" d with
                   | Some c => c
                   | None => JBool false
                   end); [|discriminate].
  destruct (dict_get "id" d); [discriminate|]. eexists. reflexivity.
Qed.

(** X10: which upstream lists give a registry, and which one.  When every
    entry is a dict and every configured entry has an id, the registry is
    the ids of the configured entries in the order of the upstream list;
    when some entry is not, collecting the ids raises and there is no
    registry. *)
Theorem X10_registry_is_filtered_list (items : list json) :
  (forallb entry_usable items = true ->
     configured_ids items = Ok (map entry_id (filter entry_configured items))
     /\ forall w resp,
          answer (net w list_url list_params) = Ok resp ->
          status resp = 200%Z ->
          body resp = Ok (JArr items) ->
          fst (get_configured_indexers w)
          = Ok (JArr (map entry_id (filter entry_configured items))))
  /\ (forallb entry_usable items = false ->
      exists e, configured_ids items = Raise e).
Proof.
  split.
  - intros Hall.
    assert (Hids : configured_ids items
                   = Ok (map entry_id (filter entry_configured items))).
    { induction items as [|x items IH]; [reflexivity|].
      cbn [forallb] in Hall. apply andb_prop in Hall as [Hx Hrest].
      rewrite (configured_ids_usable x items Hx), (IH Hrest). cbn [filter].
      destruct (entry_configured x); reflexivity. }
    split; [exact Hids|].
    intros w resp Ha Hs Hb.
    rewrite (get_configured_indexers_listing w
               (JArr (map entry_id (filter entry_configured items))));
      [reflexivity|].
    exists resp, (JArr items), items, (map entry_id (filter entry_configured items)).
    repeat split; assumption.
  - induction items as [|x items IH]; [discriminate|].
    cbn [forallb]. intros Hall.
    destruct (entry_usable x) eqn:Hx.
    + cbn [andb] in Hall. destruct (IH Hall) as [e He].
      exists e. rewrite (configured_ids_usable x items Hx), He. reflexivity.
    + apply configured_ids_unusable. exact Hx.
Qed.

(** X11: the /indexers handler bypasses the TTL.  Every call sends exactly
    one upstream list request, whatever the state of the cache and whatever
    the outcome, so two calls in a row send two. *)
Theorem X11_indexers_route_always_asks_upstream (w : world) :
  upstream_list_calls (snd (get_indexers w)) = S (upstream_list_calls w)
  /\ upstream_list_calls (snd (get_indexers (snd (get_indexers w))))
     = S (S (upstream_list_calls w)).
Proof.
  assert (H : forall w0,
             upstream_list_calls (snd (get_indexers w0))
             = S (upstream_list_calls w0)).
  { intros w0. pose proof (get_configured_indexers_calls w0) as Hc.
    unfold get_indexers, try_except, dump_CACHE_FILE, logger_error, record.
    cbn [bind ret Monad_M].
    destruct (get_configured_indexers w0) as [[ci|e] w1]; cbn [snd] in *;
      [|exact Hc].
    destruct (write_fault w1) as [e|];
      [destruct (FileNotFoundError_or_JSONDecodeError e)|]; exact Hc. }
  split; [apply H|]. rewrite H, H. reflexivity.
Qed.

(** ** Further properties of the registry accessor *)

Lemma accessor_read_error (w : world) (e : exn) :
  cache_file w = Some (Raise e) ->
  (now w - last_cache_update w < CACHE_DURATION)%Z ->
  FileNotFoundError_or_JSONDecodeError e = false ->
  get_configured_indexers_from_file w = (Raise e, w).
Proof.
  intros Hfile Hfresh He.
  unfold get_configured_indexers_from_file, os_path_exists_CACHE_FILE,
    datetime_now, read_last_cache_update, try_except, load_CACHE_FILE.
  cbn [bind ret Monad_M]. rewrite Hfile.
  apply Z.ltb_lt in Hfresh. rewrite Hfresh. cbn [andb]. rewrite Hfile, He.
  reflexivity.
Qed.

Lemma accessor_cases (w : world) :
  refresh_due w
  \/ (~ refresh_due w
      /\ exists r, cache_file w = Some r
                   /\ get_configured_indexers_from_file w = (r, w)).
Proof.
  destruct (cache_file w) as [[content|e]|] eqn:Hfile.
  - destruct (Z.ltb_spec (now w - last_cache_update w) CACHE_DURATION) as [Hf|Hs].
    + right. split.
      * intros [H | [H | (e & H & _)]]; [congruence|lia|congruence].
      * exists (Ok content). split; [reflexivity|].
        apply accessor_serves_cache; assumption.
    + left. right. left. exact Hs.
  - destruct (Z.ltb_spec (now w - last_cache_update w) CACHE_DURATION) as [Hf|Hs].
    + destruct (FileNotFoundError_or_JSONDecodeError e) eqn:He.
      * left. right. right. exists e. split; [exact Hfile|exact He].
      * right. split.
        -- intros [H | [H | (e' & H & He')]]; [congruence|lia|congruence].
        -- exists (Raise e). split; [reflexivity|].
           apply accessor_read_error; assumption.
    + left. right. left. exact Hs.
  - left. left. exact Hfile.
Qed.

(** X12: one use of the accessor sends at most one upstream list request.
    It sends exactly one when a refresh is due (no cache file, TTL elapsed,
    or a cache file whose read raises a caught exception); otherwise it
    sends none, changes nothing at all, and returns what reading the cache
    file gives. *)
Theorem X12_accessor_upstream_calls (w : world) :
  (refresh_due w
   /\ upstream_list_calls (snd (get_configured_indexers_from_file w))
      = S (upstream_list_calls w))
  \/ (~ refresh_due w
      /\ snd (get_configured_indexers_from_file w) = w
      /\ cache_file w = Some (fst (get_configured_indexers_from_file w))).
Proof.
  destruct (accessor_cases w) as [Hdue | (Hnot & r & Hfile & Hrun)].
  - left. split; [exact Hdue|]. apply accessor_refresh_calls. exact Hdue.
  - right. rewrite Hrun. repeat split; assumption.
Qed.

Lemma keeps_write_leaves_get_configured_indexers :
  keeps write_leaves get_configured_indexers.
Proof. unfold get_configured_indexers. repeat keeps_step. Qed.

(** X13: what a failing accessor leaves behind.  If the accessor raises,
    whether because the cache file cannot be read, the upstream call fails
    or the cache file cannot be written, the timestamp is what it was
    before the call.  The cache file is what it was too, with one
    exception: when the failure is the OSError of a write that struck after
    the file had been opened, the file holds what the interrupted write
    left of it. *)
Theorem X13_accessor_failure_keeps_registry (w : world) (e : exn) :
  fst (get_configured_indexers_from_file w) = Raise e ->
  let after := snd (get_configured_indexers_from_file w) in
  last_cache_update after = last_cache_update w
  /\ (cache_file after = cache_file w
      \/ exists msg remnant,
           e = OSError msg /\ write_fault w = Some e
           /\ write_leaves w = Some remnant /\ cache_file after = Some remnant)
  /\ ((forall msg, e <> OSError msg) \/ write_leaves w = None ->
      cache_file after = cache_file w).
Proof.
  intros Hraise. cbv zeta.
  assert (H : last_cache_update (snd (get_configured_indexers_from_file w))
              = last_cache_update w
              /\ (cache_file (snd (get_configured_indexers_from_file w))
                  = cache_file w
                  \/ exists msg remnant,
                       e = OSError msg /\ write_fault w = Some e
                       /\ write_leaves w = Some remnant
                       /\ cache_file (snd (get_configured_indexers_from_file w))
                          = Some remnant)).
  { revert Hraise.
    destruct (accessor_cases w) as [Hdue | (_ & r & _ & ->)];
      [|intros _; split; [reflexivity|left; reflexivity]].
    destruct (accessor_refreshes w Hdue) as [lines ->].
    pose proof (keeps_cache_file_get_configured_indexers (logged lines w)) as Hc.
    pose proof (keeps_last_cache_update_get_configured_indexers (logged lines w))
      as Hl.
    pose proof (keeps_write_fault_get_configured_indexers (logged lines w)) as Hf.
    pose proof (keeps_write_leaves_get_configured_indexers (logged lines w)) as Hv.
    destruct (get_configured_indexers (logged lines w)) as [[ci|e'] w1];
      cbn [fst snd logged cache_file last_cache_update write_fault write_leaves]
        in *.
    - destruct (write_fault w1) as [e'|] eqn:Hwf;
        [destruct (FileNotFoundError_or_JSONDecodeError e')|];
        cbn [fst snd]; intros H; try discriminate H.
      injection H as ->. split; [exact Hl|].
      unfold failed_write, left_on_disk. cbn [cache_file].
      rewrite Hv, Hc.
      destruct e; try (left; reflexivity).
      destruct (write_leaves w) as [remnant|] eqn:Hleaves; [|left; reflexivity].
      right. exists msg, remnant. repeat split. symmetry. exact Hf.
    - intros _. split; [exact Hl|left; exact Hc]. }
  destruct H as [Hl Hc]. split; [exact Hl|]. split; [exact Hc|].
  intros Hopen. destruct Hc as [Hc | (msg & remnant & -> & _ & Hleaves & _)];
    [exact Hc|].
  destruct Hopen as [Hno | Hnone]; [|congruence].
  exfalso. exact (Hno msg eq_refl).
Qed.

(** X14: a cache file that cannot be decoded repairs itself.  Within the
    TTL window, when reading the file raises JSONDecodeError (or
    FileNotFoundError), the accessor logs "Error reading cache file: ...",
    refreshes from upstream, returns the new snapshot and, the file being
    writable, replaces the content of the file by it. *)
Theorem X14_unreadable_cache_is_replaced (w : world) (e : exn) (snapshot : json) :
  cache_file w = Some (Raise e) ->
  FileNotFoundError_or_JSONDecodeError e = true ->
  (now w - last_cache_update w < CACHE_DURATION)%Z ->
  listing (net w list_url list_params) snapshot ->
  write_fault w = None ->
  let after := get_configured_indexers_from_file w in
  fst after = Ok snapshot
  /\ cache_file (snd after) = Some (Ok snapshot)
  /\ In (Log ERROR ("Error reading cache file: " ++ exn_str e)) (trace (snd after))
  /\ upstream_list_calls (snd after) = S (upstream_list_calls w).
Proof.
  intros Hfile He Hfresh Hlist Hwf. cbv zeta.
  assert (Hdue : refresh_due w).
  { right. right. exists e. split; assumption. }
  split; [|split; [|split]].
  4: exact (accessor_refresh_calls w Hdue).
  all: unfold get_configured_indexers_from_file, os_path_exists_CACHE_FILE,
         datetime_now, read_last_cache_update, try_except, load_CACHE_FILE,
         logger_error, logger_info, record, dump_CACHE_FILE,
         assign_last_cache_update;
       cbn [bind ret Monad_M]; rewrite Hfile;
       apply Z.ltb_lt in Hfresh; rewrite Hfresh; cbn [andb];
       rewrite Hfile, He;
       erewrite get_configured_indexers_listing by exact Hlist;
       unfold session_get; cbn [snd write_fault]; rewrite Hwf.
  - reflexivity.
  - reflexivity.
  - cbn [snd trace]. right. right. left. reflexivity.
Qed.

(** X15: a cache file that cannot be read for another reason stops the
    accessor.  Within the TTL window, when reading the file raises an
    exception other than FileNotFoundError and JSONDecodeError (a
    PermissionError, say), the accessor raises it without logging,
    without asking upstream and without changing anything. *)
Theorem X15_uncaught_read_error (w : world) (e : exn) :
  cache_file w = Some (Raise e) ->
  FileNotFoundError_or_JSONDecodeError e = false ->
  (now w - last_cache_update w < CACHE_DURATION)%Z ->
  get_configured_indexers_from_file w = (Raise e, w).
Proof.
  intros Hfile He Hfresh. apply accessor_read_error; assumption.
Qed.

Lemma accessor_refresh_caught_write (w : world) (snapshot : json) (e : exn) :
  refresh_due w ->
  listing (net w list_url list_params) snapshot ->
  write_fault w = Some e ->
  FileNotFoundError_or_JSONDecodeError e = true ->
  exists tr,
    get_configured_indexers_from_file w
    = (Ok snapshot,
       {| last_cache_update := now w + elapsed (net w list_url list_params);
          now := now w + elapsed (net w list_url list_params);
          cache_file := cache_file w;
          write_fault := Some e;
          write_leaves := write_leaves w; net := net w; trace := tr |}).
Proof.
  intros Hdue Hlist Hwf He. destruct (accessor_refreshes w Hdue) as [lines ->].
  rewrite (get_configured_indexers_listing (logged lines w) snapshot Hlist).
  unfold session_get. cbn [snd write_fault logged now net cache_file].
  rewrite Hwf, He. eexists. reflexivity.
Qed.

(** X16: the accessor keeps no snapshot in memory.  When the cache file is
    missing and writing it fails with a caught exception
    (FileNotFoundError), the refresh returns the snapshot and moves the
    timestamp, but leaves no file behind, so the next call asks upstream
    again however soon it comes. *)
Theorem X16_no_snapshot_without_file (w : world) (snapshot : json) (e : exn)
    (d : Z) :
  cache_file w = None ->
  write_fault w = Some e ->
  FileNotFoundError_or_JSONDecodeError e = true ->
  listing (net w list_url list_params) snapshot ->
  let w1 := snd (get_configured_indexers_from_file w) in
  fst (get_configured_indexers_from_file w) = Ok snapshot
  /\ last_cache_update w1 = now w1
  /\ cache_file w1 = None
  /\ upstream_list_calls (snd (get_configured_indexers_from_file (wait d w1)))
     = S (S (upstream_list_calls w)).
Proof.
  intros Hfile Hwf He Hlist. cbv zeta.
  assert (Hdue : refresh_due w) by (left; exact Hfile).
  pose proof (accessor_refresh_calls w Hdue) as Hcalls.
  destruct (accessor_refresh_caught_write w snapshot e Hdue Hlist Hwf He)
    as [tr Hrun].
  rewrite Hrun in *. cbn [fst snd last_cache_update now cache_file] in *.
  split; [reflexivity|]. split; [reflexivity|]. split; [exact Hfile|].
  rewrite accessor_refresh_calls.
  - f_equal. exact Hcalls.
  - left. exact Hfile.
Qed.

(** X17: what the /indexers handler does to a later search.  It writes the
    snapshot to the cache file without moving the timestamp: a use of the
    accessor that still falls within 30 minutes of the old timestamp
    returns the snapshot of /indexers without asking upstream, even if
    there was no cache file before; a use that falls outside refreshes,
    although the file has just been written. *)
Theorem X17_indexers_route_then_accessor (w : world) (snapshot : json) (d : Z) :
  listing (net w list_url list_params) snapshot ->
  write_fault w = None ->
  let w1 := wait d (snd (get_indexers w)) in
  ((now w1 - last_cache_update w < CACHE_DURATION)%Z ->
     get_configured_indexers_from_file w1 = (Ok snapshot, w1))
  /\ ((CACHE_DURATION <= now w1 - last_cache_update w)%Z ->
      upstream_list_calls (snd (get_configured_indexers_from_file w1))
      = S (upstream_list_calls w1)).
Proof.
  intros Hlist Hwf. cbv zeta.
  rewrite (get_indexers_run w snapshot Hlist). cbv zeta. rewrite Hwf.
  cbn [snd]. split; intros H.
  - apply accessor_serves_cache; [reflexivity|exact H].
  - apply accessor_refresh_calls. right. left. exact H.
Qed.

(** ** Further properties of the fan-out aggregator *)

Lemma requests_logged (lines : list (level * string)) (w : world) :
  requests (trace (logged lines w)) = requests (trace w).
Proof.
  unfold logged. cbn [trace].
  induction lines as [|[l m] lines IH]; [reflexivity|exact IH].
Qed.

(** X18: a search without a registry is an empty failed stream.  When a
    refresh is due and the upstream list call is answered with a status
    other than 200, the search yields no event, ends with the HTTPException
    that carries the upstream status, and has sent the list request and no
    request to any backend. *)
Theorem X18_search_without_registry (w : world) (order : list nat)
    (query : string) (resp : response) :
  refresh_due w ->
  answer (net w list_url list_params) = Ok resp ->
  status resp <> 200%Z ->
  let after := event_generator order query w in
  fst after
  = {| emitted := [];
       failure := Some (HTTPException (status resp)
                          ("Jackett API Error: " ++ str_of_Z (status resp)
                           ++ " - " ++ reason resp)) |}
  /\ requests (trace (snd after)) = (list_url, list_params) :: requests (trace w).
Proof.
  intros Hdue Ha Hs. cbv zeta. unfold event_generator.
  destruct (accessor_refreshes w Hdue) as [lines ->].
  assert (Hrun : get_configured_indexers (logged lines w)
                 = (Raise (HTTPException (status resp)
                             ("Jackett API Error: " ++ str_of_Z (status resp)
                              ++ " - " ++ reason resp)),
                    snd (logger_error
                           ("Jackett API Error: " ++ str_of_Z (status resp)
                            ++ " - " ++ reason resp)
                           (snd (session_get list_url list_params
                                   (logged lines w)))))).
  { unfold get_configured_indexers, try_except, session_get, logger_error,
      record, raise.
    fold list_url list_params. cbn [bind ret Monad_M fst snd net logged].
    rewrite Ha. destruct (Z.eqb_spec (status resp) 200); [contradiction|].
    reflexivity. }
  rewrite Hrun. cbn [fst snd]. split; [reflexivity|].
  unfold logger_error, record, session_get. cbn [snd trace requests].
  rewrite <- (requests_logged lines w). reflexivity.
Qed.

Lemma fetch_outcomes (query : string) (w : world) (ids : list json)
    (batches : list (list json)) :
  Forall2 (fun indexer_id b =>
             fst (fetch_jackett_results_for_indexer (py_str indexer_id) query w)
             = Ok b) ids batches ->
  batches
  = map (fun indexer_id =>
           batch (py_str indexer_id)
                 (net w (get_search_results_url (py_str indexer_id))
                        (query_params query))) ids.
Proof.
  intros H. induction H as [|i b ids bs Hi _ IH]; [reflexivity|].
  cbn [map]. rewrite fetch_batch in Hi. injection Hi as <-. rewrite IH.
  reflexivity.
Qed.

(** X19: the stream is made of whole batches.  Once the registry is a list
    of ids, the search ends without an exception whatever the backends
    answer, and what it emits is the batches the executor returns for the
    ids, each batch in one piece and in its own order, one batch after the
    other in the order of completion.  Another order of completion only
    rearranges the same events. *)
Theorem X19_stream_of_whole_batches (w : world) (order : list nat)
    (query : string) (ids : list json) (batches : list (list json)) :
  fst (get_configured_indexers_from_file w) = Ok (JArr ids) ->
  Forall2 (fun indexer_id b =>
             fst (fetch_jackett_results_for_indexer (py_str indexer_id) query w)
             = Ok b) ids batches ->
  fst (event_generator order query w)
  = {| emitted := map sse (List.concat (as_completed order batches));
       failure := None |}
  /\ (completion_order order (List.length ids) ->
      Permutation (emitted (fst (event_generator order query w)))
                  (map sse (List.concat batches))
      /\ List.length (emitted (fst (event_generator order query w)))
         = list_sum (map (@List.length json) batches)).
Proof.
  intros Hreg Hb.
  assert (Hlen : List.length batches = List.length ids).
  { symmetry. exact (Forall2_length Hb). }
  rewrite (event_generator_stream order query w ids Hreg).
  rewrite <- (fetch_outcomes query w ids batches Hb).
  split; [reflexivity|].
  intros Hord. rewrite <- Hlen in Hord. cbn [emitted].
  assert (Hperm : Permutation (List.concat (as_completed order batches))
                              (List.concat batches)).
  { apply concat_permutation, as_completed_permutation. exact Hord. }
  split.
  - apply Permutation_map. exact Hperm.
  - rewrite length_map, (Permutation_length Hperm).
    clear. induction batches as [|b bs IH]; [reflexivity|].
    cbn [List.concat map list_sum fold_right]. rewrite length_app.
    f_equal. exact IH.
Qed.

Lemma create_tasks_requests (query : string) (ids : list json) (w : world) :
  requests (trace (snd (create_tasks
                          (map (fun indexer_id =>
                                  process_indexer (py_str indexer_id) query) ids)
                          w)))
  = (rev (map (fun indexer_id =>
                 (get_search_results_url (py_str indexer_id), query_params query))
              ids)
     ++ requests (trace w))%list.
Proof.
  revert w. induction ids as [|i ids IH]; intros w; [reflexivity|].
  cbn [map create_tasks rev].
  pose proof (process_indexer_requests (py_str i) query w) as Hr.
  destruct (process_indexer (py_str i) query w) as [r w1]. cbn [snd] in Hr.
  specialize (IH w1).
  destruct (create_tasks _ w1) as [rs w2]. cbn [snd] in IH |- *.
  rewrite IH, Hr, <- app_assoc. reflexivity.
Qed.

(** X20: every registry entry is queried once.  A search whose registry is
    the list [ids] sends, after whatever the registry access sent, exactly
    one results request per entry of the list, repeated entries included,
    each with the API key and the query, whatever the order of
    completion. *)
Theorem X20_one_request_per_registry_entry (w : world) (order : list nat)
    (query : string) (ids : list json) :
  fst (get_configured_indexers_from_file w) = Ok (JArr ids) ->
  Permutation
    (requests (trace (snd (event_generator order query w))))
    (map (fun indexer_id =>
            (get_search_results_url (py_str indexer_id),
             [("apikey", API_KEY); ("Query", Some query)])) ids
     ++ requests (trace (snd (get_configured_indexers_from_file w)))).
Proof.
  intros Hreg. unfold event_generator.
  destruct (get_configured_indexers_from_file w) as [r w1].
  cbn [fst snd] in *. subst r. cbn [py_iter].
  pose proof (create_tasks_requests query ids w1) as Hr.
  destruct (create_tasks _ w1) as [tasks w2]. cbn [snd] in Hr |- *.
  rewrite Hr. apply Permutation_app_tail. symmetry. apply Permutation_rev.
Qed.

(** X21: the content of the cache file is trusted as it is.  Within the TTL
    window, a cache file that holds valid JSON which is not iterable (null,
    a number or a boolean) makes every search fail with a TypeError before
    any event, with no refresh and no request at all. *)
Theorem X21_cache_content_not_validated (w : world) (order : list nat)
    (query : string) (content : json) :
  cache_file w = Some (Ok content) ->
  (now w - last_cache_update w < CACHE_DURATION)%Z ->
  content = JNull \/ (exists b, content = JBool b) \/ (exists z, content = JNum z) ->
  event_generator order query w
  = ({| emitted := [];
        failure := Some (TypeError ("'" ++ type_name content
                                    ++ "' object is not iterable")) |}, w).
Proof.
  intros Hfile Hfresh Hc. unfold event_generator.
  rewrite (accessor_serves_cache w content Hfile Hfresh).
  destruct Hc as [-> | [[b ->] | [z ->]]]; reflexivity.
Qed.

Lemma failed_fails (r : reply) : failed r = true -> fails r.
Proof.
  unfold failed, fails. destruct (answer r) as [resp|e]; intros H.
  - right. left. exists resp. split; [reflexivity|].
    destruct (Z.eqb_spec (status resp) 200); [discriminate|assumption].
  - left. exists e. reflexivity.
Qed.

(** X22: failure isolation for any number of backends.  With a registry of
    any size in which every backend whose request does not fail succeeds,
    the search ends without an exception for every order of completion,
    and the error records among its events are as many as the backends
    whose request failed: one each. *)
Theorem X22_one_error_record_per_failed_backend (w : world) (order : list nat)
    (query : string) (ids : list json) :
  fst (get_configured_indexers_from_file w) = Ok (JArr ids) ->
  completion_order order (List.length ids) ->
  (forall indexer_id,
      In indexer_id ids ->
      failed (net w (get_search_results_url (py_str indexer_id))
                    (query_params query)) = false ->
      exists normalized,
        succeeds (net w (get_search_results_url (py_str indexer_id))
                        (query_params query)) normalized) ->
  exists items,
    fst (event_generator order query w)
    = {| emitted := map sse items; failure := None |}
    /\ List.length (filter is_error_record items)
       = List.length
           (filter (fun indexer_id =>
                      failed (net w (get_search_results_url (py_str indexer_id))
                                    (query_params query))) ids).
Proof.
  intros Hreg Hord Hok.
  set (reply_of := fun indexer_id : json =>
         net w (get_search_results_url (py_str indexer_id)) (query_params query)).
  set (batch_of := fun indexer_id : json => batch (py_str indexer_id) (reply_of indexer_id)).
  exists (List.concat (as_completed order (map batch_of ids))).
  split; [exact (event_generator_stream order query w ids Hreg)|].
  rewrite <- (length_map batch_of ids) in Hord.
  rewrite (filter_length_permutation is_error_record _ _
             (concat_permutation _ _ (as_completed_permutation _ _ Hord))).
  clear Hreg Hord. subst batch_of reply_of. cbv beta.
  induction ids as [|i ids IH]; [reflexivity|].
  cbn [map List.concat filter]. rewrite filter_app, length_app, IH.
  2: { intros j Hj. apply Hok. right. exact Hj. }
  destruct (failed (net w (get_search_results_url (py_str i)) (query_params query)))
    eqn:Hf.
  - destruct (batch_fails (py_str i) _ (failed_fails _ Hf)) as (err & Hb & _).
    rewrite Hb. reflexivity.
  - destruct (Hok i (or_introl eq_refl) Hf) as [n Hn].
    rewrite (batch_succeeds (py_str i) _ _ Hn), (succeeds_no_error_record _ _ Hn).
    reflexivity.
Qed.

End Service.

(** ** The theorems at the sample deployment *)

(** C3 (as stated): a magnet-URI field that is present but empty is not
    replaced by a synthesized link.  With [MagnetUri] the empty string and
    both a torrent URL and an info-hash present and non-empty, the
    normalized Link is the empty string, not
    [magnet:?xt=urn:btih:] followed by the lowercased hash. *)
Lemma C3_empty_magnet_string_counterexample :
  let raw := [("MagnetUri", JStr "");
              ("Link", JStr "http://tracker.example/file.torrent");
              ("InfoHash", JStr "ABCDEF0123")] in
  field "MagnetUri" raw = JStr ""
  /\ (exists out, trimmed_result sample_unicode_lower (JObj raw) = Ok (JObj out)
                  /\ field "Link" out = JStr "")
  /\ create_magnet_link sample_unicode_lower (JObj raw)
     <> Ok (JStr ("magnet:?xt=urn:btih:" ++ str_lower sample_unicode_lower "ABCDEF0123")).
Proof.
  cbv zeta. split; [reflexivity|]. split.
  - eexists. split; reflexivity.
  - discriminate.
Qed.

Lemma C3_magnet_link_synthesized_witness :
  exists out,
    trimmed_result sample_unicode_lower (JObj [("Title", JStr "Some Film");
                          ("Link", JStr "http://tracker.example/file.torrent");
                          ("InfoHash", JStr "ABCDEF0123")]) = Ok (JObj out)
    /\ field "Link" out = JStr "magnet:?xt=urn:btih:abcdef0123".
Proof.
  exact (proj1 (C3_magnet_link_synthesized sample_unicode_lower
                  [("Title", JStr "Some Film");
                   ("Link", JStr "http://tracker.example/file.torrent");
                   ("InfoHash", JStr "ABCDEF0123")]
                  "http://tracker.example/file.torrent" "ABCDEF0123"
                  eq_refl eq_refl eq_refl)).
Defined.

(** C7 (as stated): the normalized record has no field [Year] (its key is
    [year]), its [IndexerId] is not the input's field of that name but the
    input's [Tracker], and normalization raises on a record whose info-hash
    is not a string. *)
Lemma C7_record_shape_counterexample :
  (let raw := [("Title", JStr "Some Film"); ("Year", JNum 1999);
               ("IndexerId", JStr "by-name"); ("Tracker", JStr "by-tracker")] in
   exists out, trimmed_result sample_unicode_lower (JObj raw) = Ok (JObj out)
               /\ dict_get "Year" out = None
               /\ dict_get "year" out = Some (JNum 1999)
               /\ field "IndexerId" raw = JStr "by-name"
               /\ dict_get "IndexerId" out = Some (JStr "by-tracker"))
  /\ trimmed_result
      sample_unicode_lower (JObj [("Link", JStr "http://tracker.example/file.torrent");
                           ("InfoHash", JNum 5)])
     = Raise (AttributeError "'int' object has no attribute 'lower'").
Proof.
  split.
  - cbv zeta. eexists. repeat split; reflexivity.
  - reflexivity.
Qed.

Lemma C7_normalized_record_witness :
  exists link out,
    create_magnet_link
        sample_unicode_lower (JObj [("Title", JStr "Some Film"); ("Year", JNum 1999)])
    = Ok link
    /\ trimmed_result
        sample_unicode_lower (JObj [("Title", JStr "Some Film"); ("Year", JNum 1999)])
       = Ok (JObj out)
    /\ dict_keys out = ["Title"; "Link"; "Size"; "Seeders"; "Leechers";
                        "InfoHash"; "IndexerId"; "year"; "Details"].
Proof.
  destruct (C7_normalized_record sample_unicode_lower
              [("Title", JStr "Some Film"); ("Year", JNum 1999)] eq_refl)
    as (link & out & H1 & H2 & H3 & _).
  exists link, out. repeat split; assumption.
Defined.

Lemma sample_listing :
  listing (sample_net (list_url sample_url) (list_params sample_key))
          (JArr [JStr "alpha"; JStr "beta"; JStr "gamma"]).
Proof.
  exists {| status := 200; reason := "OK"; body := Ok sample_indexers |}.
  exists sample_indexers.
  exists [JObj [("id", JStr "alpha"); ("configured", JBool true)];
          JObj [("id", JStr "beta"); ("configured", JBool true)];
          JObj [("id", JStr "unused")];
          JObj [("id", JStr "gamma"); ("configured", JBool true)]].
  exists [JStr "alpha"; JStr "beta"; JStr "gamma"].
  repeat split; reflexivity.
Defined.




(** C4 (as stated): a process that starts with a cache file on disk serves
    it for 30 minutes.  Two calls within that window perform no upstream
    list call, not one; a call, a wait past the TTL and a second call
    perform one, not two. *)
Lemma C4_cached_start_counterexample :
  let accessor := get_configured_indexers_from_file sample_url sample_key in
  let w0 := startup 0 (Some (Ok (JArr [JStr "alpha"]))) None sample_net in
  let w1 := snd (accessor (wait 1000000 w0)) in
  upstream_list_calls sample_url (snd (accessor (wait 1000000 w1))) = 0%nat
  /\ upstream_list_calls sample_url (snd (accessor (wait CACHE_DURATION w1))) = 1%nat.
Proof. split; reflexivity. Qed.

Lemma C4_upstream_calls_witness :
  let accessor := get_configured_indexers_from_file sample_url sample_key in
  let w0 := startup 0 None None sample_net in
  let w1 := snd (accessor w0) in
  fst (accessor w0) = Ok (JArr [JStr "alpha"; JStr "beta"; JStr "gamma"])
  /\ upstream_list_calls sample_url (snd (accessor (wait 60000000 w1))) = 1%nat
  /\ upstream_list_calls sample_url (snd (accessor (wait CACHE_DURATION w1))) = 2%nat.
Proof.
  cbv zeta.
  pose proof (C4_upstream_calls sample_url sample_key
                (startup 0 None None sample_net)
                (JArr [JStr "alpha"; JStr "beta"; JStr "gamma"]) 60000000
                (or_introl eq_refl) sample_listing eq_refl) as (H1 & _ & H2 & _).
  pose proof (C4_upstream_calls sample_url sample_key
                (startup 0 None None sample_net)
                (JArr [JStr "alpha"; JStr "beta"; JStr "gamma"]) CACHE_DURATION
                (or_introl eq_refl) sample_listing eq_refl) as (_ & _ & _ & H3).
  split; [exact H1|]. split.
  - exact (proj2 (H2 eq_refl)).
  - apply H3. discriminate.
Defined.

(** C5 (as stated): one second after a restart that finds a cache file on
    disk, the first use of the accessor returns the content of the file and
    sends no request to the upstream server. *)
Lemma C5_restart_serves_file_counterexample :
  let w := wait 1000000
             (startup 0 (Some (Ok (JArr [JStr "left-over"]))) None sample_net) in
  let after := get_configured_indexers_from_file sample_url sample_key w in
  fst after = Ok (JArr [JStr "left-over"])
  /\ trace (snd after) = []
  /\ upstream_list_calls sample_url (snd after) = 0%nat.
Proof. repeat split. Qed.

Lemma C5_first_use_after_restart_witness :
  fst (get_configured_indexers_from_file sample_url sample_key
         (wait 1000000
            (startup 0 (Some (Ok (JArr [JStr "left-over"]))) None sample_net)))
  = Ok (JArr [JStr "left-over"])
  /\ upstream_list_calls sample_url
       (snd (get_configured_indexers_from_file sample_url sample_key
               (wait CACHE_DURATION
                  (startup 0 (Some (Ok (JArr [JStr "left-over"]))) None sample_net))))
     = 1%nat.
Proof.
  split.
  - rewrite (proj1 (C5_first_use_after_restart sample_url sample_key 0 1000000
                      (Some (Ok (JArr [JStr "left-over"]))) None sample_net)
                   (JArr [JStr "left-over"]) eq_refl eq_refl).
    reflexivity.
  - apply (proj2 (C5_first_use_after_restart sample_url sample_key 0 CACHE_DURATION
                    (Some (Ok (JArr [JStr "left-over"]))) None sample_net)).
    right. discriminate.
Defined.

Lemma C6_cache_write_failure_witness :
  let denied := PermissionError "[Errno 13] Permission denied: 'configured_indexers.json'" in
  let w := startup 0 None (Some denied) sample_net in
  fst (get_configured_indexers_from_file sample_url sample_key w) = Raise denied
  /\ last_cache_update (snd (get_configured_indexers_from_file sample_url sample_key w))
     = 0%Z
  /\ fst (get_indexers sample_url sample_key w) = Raise denied.
Proof.
  cbv zeta.
  exact (proj1 (C6_cache_write_failure sample_url sample_key
                  (startup 0 None
                     (Some (PermissionError
                              "[Errno 13] Permission denied: 'configured_indexers.json'"))
                     sample_net)
                  (JArr [JStr "alpha"; JStr "beta"; JStr "gamma"])
                  (PermissionError
                     "[Errno 13] Permission denied: 'configured_indexers.json'")
                  (or_introl eq_refl) sample_listing eq_refl)
               eq_refl).
Defined.

Lemma C8_empty_registry_witness :
  fst (search sample_url sample_key sample_dumps sample_repr sample_2f sample_unicode_lower
         [] "ubuntu" (startup 0 (Some (Ok (JArr []))) None sample_net))
  = {| emitted := []; failure := None |}.
Proof.
  apply C8_empty_registry. reflexivity.
Defined.

Lemma C9_registry_entries_witness :
  configured_ids
    [JObj [("id", JStr "alpha"); ("configured", JBool true)];
     JObj [("id", JStr "unused")];
     JObj [("id", JStr "gamma"); ("configured", JBool true)]]
  = configured_ids
      [JObj [("id", JStr "alpha"); ("configured", JBool true)];
       JObj [("id", JStr "gamma"); ("configured", JBool true)]]
  /\ fst (get_configured_indexers sample_url sample_key
            (startup 0 None None sample_net_missing_id))
     = Raise (KeyError "id")
  /\ fst (get_configured_indexers_from_file sample_url sample_key
            (startup 0 None None sample_net_missing_id))
     = Raise (KeyError "id").
Proof.
  split.
  - exact (proj1 (proj1 (C9_registry_entries sample_url sample_key
                           [JObj [("id", JStr "alpha"); ("configured", JBool true)]]
                           [JObj [("id", JStr "gamma"); ("configured", JBool true)]]
                           [("id", JStr "unused")])
                        eq_refl)).
  - destruct (proj2 (proj2 (C9_registry_entries sample_url sample_key
                              [JObj [("id", JStr "alpha"); ("configured", JBool true)]]
                              []
                              [("name", JStr "beta"); ("configured", JBool true)])
                           eq_refl eq_refl)
                    (startup 0 None None sample_net_missing_id)
                    {| status := 200; reason := "OK";
                       body := Ok (JArr [JObj [("id", JStr "alpha");
                                               ("configured", JBool true)];
                                         JObj [("name", JStr "beta");
                                               ("configured", JBool true)]]) |}
                    [JStr "alpha"] eq_refl eq_refl eq_refl eq_refl)
      as (H1 & _ & H3).
    split; [exact H1|].
    exact (proj1 (H3 (or_introl eq_refl))).
Defined.

Lemma C10_indexers_route_keeps_timestamp_witness :
  let w := wait 600000000 (startup 0 None None sample_net) in
  fst (get_indexers sample_url sample_key w)
  = Ok (JObj [("indexers", JArr [JStr "alpha"; JStr "beta"; JStr "gamma"])])
  /\ cache_file (snd (get_indexers sample_url sample_key w))
     = Some (Ok (JArr [JStr "alpha"; JStr "beta"; JStr "gamma"]))
  /\ last_cache_update (snd (get_indexers sample_url sample_key w)) = 0%Z.
Proof.
  cbv zeta.
  destruct (C10_indexers_route_keeps_timestamp sample_url sample_key
              (wait 600000000 (startup 0 None None sample_net)))
    as (Hkeep & _ & Hwrite & _).
  destruct (Hwrite (JArr [JStr "alpha"; JStr "beta"; JStr "gamma"])
              sample_listing eq_refl) as [Hret Hfile].
  split; [exact Hret|]. split; [exact Hfile|exact Hkeep].
Defined.

(** ** The further properties at the sample deployment *)

Lemma X1_magnet_uri_verbatim_witness :
  create_magnet_link sample_unicode_lower
    (JObj [("MagnetUri", JStr "magnet:?xt=urn:btih:ffff");
           ("Link", JStr "http://tracker.example/1.torrent");
           ("InfoHash", JNum 5)])
  = Ok (JStr "magnet:?xt=urn:btih:ffff").
Proof.
  exact (proj1 (X1_magnet_uri_verbatim sample_unicode_lower
                  [("MagnetUri", JStr "magnet:?xt=urn:btih:ffff");
                   ("Link", JStr "http://tracker.example/1.torrent");
                   ("InfoHash", JNum 5)] eq_refl)).
Defined.

Lemma X2_link_falls_back_to_torrent_url_witness :
  create_magnet_link
      sample_unicode_lower (JObj [("InfoHash", JStr "ABCDEF0123")]) = Ok JNull
  /\ create_magnet_link
      sample_unicode_lower (JObj [("Link", JStr "http://tracker.example/1.torrent")])
     = Ok (JStr "http://tracker.example/1.torrent").
Proof.
  split.
  - exact (proj1 (X2_link_falls_back_to_torrent_url sample_unicode_lower
                    [("InfoHash", JStr "ABCDEF0123")] eq_refl (or_introl eq_refl))).
  - exact (proj1 (X2_link_falls_back_to_torrent_url sample_unicode_lower
                    [("Link", JStr "http://tracker.example/1.torrent")]
                    eq_refl (or_intror eq_refl))).
Defined.

Lemma X3_normalization_failures_witness :
  trimmed_result
      sample_unicode_lower (JObj [("Link", JStr "http://tracker.example/1.torrent");
                        ("InfoHash", JNum 5)])
  = Raise (AttributeError "'int' object has no attribute 'lower'")
  /\ trimmed_result sample_unicode_lower (JStr "broken")
     = Raise (AttributeError "'str' object has no attribute 'get'").
Proof.
  split.
  - exact (proj1 (X3_normalization_failures sample_unicode_lower
                    [("Link", JStr "http://tracker.example/1.torrent");
                     ("InfoHash", JNum 5)]) eq_refl).
  - apply (proj2 (proj2 (X3_normalization_failures sample_unicode_lower []))).
    intros d'. discriminate.
Defined.

Lemma X4_bad_record_spoils_batch_witness :
  fst (fetch_jackett_results_for_indexer sample_url sample_key
         sample_unicode_lower "alpha" "ubuntu"
         (startup 0 None None
            (fun _ _ => sample_ok (JObj [("Results",
                                          JArr [sample_raw; JStr "broken"])]))))
  = Ok [JObj [("error",
               JStr "Exception fetching from indexer alpha: 'str' object has no attribute 'get'")]].
Proof.
  exact (X4_bad_record_spoils_batch sample_url sample_key
      sample_unicode_lower "alpha" "ubuntu"
           (startup 0 None None
              (fun _ _ => sample_ok (JObj [("Results",
                                            JArr [sample_raw; JStr "broken"])])))
           {| status := 200; reason := "OK";
              body := Ok (JObj [("Results", JArr [sample_raw; JStr "broken"])]) |}
           [("Results", JArr [sample_raw; JStr "broken"])]
           [sample_raw] []
           [JObj [("Title", JStr "Ubuntu 24.04");
                  ("Link", JStr "magnet:?xt=urn:btih:abcdef0123");
                  ("Size", JNull); ("Seeders", JNum 12); ("Leechers", JNull);
                  ("InfoHash", JStr "ABCDEF0123"); ("IndexerId", JStr "alpha");
                  ("year", JNull); ("Details", JNull)]]
           (JStr "broken")
           (AttributeError "'str' object has no attribute 'get'")
           eq_refl eq_refl eq_refl eq_refl eq_refl eq_refl).
Defined.

Lemma X5_unexpected_body_is_an_error_record_witness :
  fst (fetch_jackett_results_for_indexer sample_url sample_key
         sample_unicode_lower "alpha" "ubuntu"
         (startup 0 None None (fun _ _ => sample_ok (JArr []))))
  = Ok [JObj [("error",
               JStr "Exception fetching from indexer alpha: 'list' object has no attribute 'get'")]]
  /\ fst (fetch_jackett_results_for_indexer sample_url sample_key
         sample_unicode_lower "alpha" "ubuntu"
            (startup 0 None None
               (fun _ _ => sample_ok (JObj [("Results", JNull)]))))
     = Ok [JObj [("error",
                  JStr "Exception fetching from indexer alpha: object of type 'NoneType' has no len()")]].
Proof.
  split.
  - apply (proj1 (X5_unexpected_body_is_an_error_record sample_url sample_key
      sample_unicode_lower
                    "alpha" "ubuntu"
                    (startup 0 None None (fun _ _ => sample_ok (JArr [])))
                    {| status := 200; reason := "OK"; body := Ok (JArr []) |}
                    (JArr []) eq_refl eq_refl eq_refl)).
    intros d. discriminate.
  - exact (proj2 (X5_unexpected_body_is_an_error_record sample_url sample_key
      sample_unicode_lower
                    "alpha" "ubuntu"
                    (startup 0 None None
                       (fun _ _ => sample_ok (JObj [("Results", JNull)])))
                    {| status := 200; reason := "OK";
                       body := Ok (JObj [("Results", JNull)]) |}
                    (JObj [("Results", JNull)]) eq_refl eq_refl eq_refl)
                 [("Results", JNull)] JNull eq_refl eq_refl (or_introl eq_refl)).
Defined.

Lemma X7_results_url_injective_witness : "alpha" = "alpha".
Proof.
  exact (X7_results_url_injective sample_url "alpha" "alpha" eq_refl).
Defined.

Lemma X8_upstream_rejection_witness :
  fst (get_configured_indexers sample_url sample_key
         (startup 0 None None (fun _ _ => sample_unavailable)))
  = Raise (HTTPException 503 "Jackett API Error: 503 - Service Unavailable")
  /\ fst (get_indexers sample_url sample_key
            (startup 0 None None (fun _ _ => sample_unavailable)))
     = Raise (HTTPException 503 "Jackett API Error: 503 - Service Unavailable").
Proof.
  destruct (X8_upstream_rejection sample_url sample_key
              (startup 0 None None (fun _ _ => sample_unavailable))
              {| status := 503; reason := "Service Unavailable";
                 body := Raise (ClientError "unexpected mimetype: text/html") |}
              eq_refl ltac:(discriminate)) as (H1 & _ & H3 & _).
  split; [exact H1|exact H3].
Defined.

Lemma X9_upstream_exception_witness :
  fst (get_configured_indexers sample_url sample_key
         (startup 0 None None
            (fun _ _ => {| elapsed := 0;
                           answer := Raise (ClientError "Cannot connect to host") |})))
  = Raise (HTTPException 500
             "Error connecting to Jackett API: Cannot connect to host")
  /\ fst (get_configured_indexers sample_url sample_key
            (startup 0 None None
               (fun _ _ => {| elapsed := 0;
                              answer := Raise (TimeoutError "") |})))
     = Raise (TimeoutError "").
Proof.
  split.
  - exact (X9_upstream_exception sample_url sample_key
             (startup 0 None None
                (fun _ _ => {| elapsed := 0;
                               answer := Raise (ClientError "Cannot connect to host") |}))
             (ClientError "Cannot connect to host") (or_introl eq_refl)).
  - exact (X9_upstream_exception sample_url sample_key
             (startup 0 None None
                (fun _ _ => {| elapsed := 0; answer := Raise (TimeoutError "") |}))
             (TimeoutError "") (or_introl eq_refl)).
Defined.

Lemma X10_registry_is_filtered_list_witness :
  configured_ids
    [JObj [("id", JStr "alpha"); ("configured", JBool true)];
     JObj [("id", JStr "beta"); ("configured", JBool false)];
     JObj [("name", JStr "no id, not configured")];
     JObj [("id", JStr "gamma"); ("configured", JBool true)]]
  = Ok [JStr "alpha"; JStr "gamma"].
Proof.
  exact (proj1 (proj1 (X10_registry_is_filtered_list sample_url sample_key
                         [JObj [("id", JStr "alpha"); ("configured", JBool true)];
                          JObj [("id", JStr "beta"); ("configured", JBool false)];
                          JObj [("name", JStr "no id, not configured")];
                          JObj [("id", JStr "gamma"); ("configured", JBool true)]])
                      eq_refl)).
Defined.

Lemma X13_accessor_failure_keeps_registry_witness :
  let w := wait CACHE_DURATION
             (startup 0 (Some (Ok (JArr [JStr "old"]))) None
                (fun _ _ => sample_unavailable)) in
  last_cache_update (snd (get_configured_indexers_from_file sample_url sample_key w))
  = 0%Z
  /\ cache_file (snd (get_configured_indexers_from_file sample_url sample_key w))
     = Some (Ok (JArr [JStr "old"])).
Proof.
  destruct (X13_accessor_failure_keeps_registry sample_url sample_key
              (wait CACHE_DURATION
                 (startup 0 (Some (Ok (JArr [JStr "old"]))) None
                    (fun _ _ => sample_unavailable)))
              (HTTPException 503 "Jackett API Error: 503 - Service Unavailable")
              eq_refl) as (Hl & _ & Hc).
  split; [exact Hl|]. apply Hc. right. reflexivity.
Defined.

Lemma X14_unreadable_cache_is_replaced_witness :
  let w := startup 0
             (Some (Raise (JSONDecodeError "Expecting value: line 1 column 1 (char 0)")))
             None sample_net in
  fst (get_configured_indexers_from_file sample_url sample_key w)
  = Ok (JArr [JStr "alpha"; JStr "beta"; JStr "gamma"])
  /\ cache_file (snd (get_configured_indexers_from_file sample_url sample_key w))
     = Some (Ok (JArr [JStr "alpha"; JStr "beta"; JStr "gamma"])).
Proof.
  destruct (X14_unreadable_cache_is_replaced sample_url sample_key
              (startup 0
                 (Some (Raise (JSONDecodeError
                                 "Expecting value: line 1 column 1 (char 0)")))
                 None sample_net)
              (JSONDecodeError "Expecting value: line 1 column 1 (char 0)")
              (JArr [JStr "alpha"; JStr "beta"; JStr "gamma"])
              eq_refl eq_refl eq_refl sample_listing eq_refl)
    as (H1 & H2 & _).
  split; [exact H1|exact H2].
Defined.

Lemma X15_uncaught_read_error_witness :
  fst (get_configured_indexers_from_file sample_url sample_key
         (startup 0
            (Some (Raise (PermissionError
                            "[Errno 13] Permission denied: 'configured_indexers.json'")))
            None sample_net))
  = Raise (PermissionError "[Errno 13] Permission denied: 'configured_indexers.json'").
Proof.
  rewrite (X15_uncaught_read_error sample_url sample_key
             (startup 0
                (Some (Raise (PermissionError
                                "[Errno 13] Permission denied: 'configured_indexers.json'")))
                None sample_net)
             (PermissionError "[Errno 13] Permission denied: 'configured_indexers.json'")
             eq_refl eq_refl eq_refl).
  reflexivity.
Defined.

Lemma X16_no_snapshot_without_file_witness :
  let accessor := get_configured_indexers_from_file sample_url sample_key in
  let w := startup 0 None
             (Some (FileNotFoundError
                      "[Errno 2] No such file or directory: 'configured_indexers.json'"))
             sample_net in
  fst (accessor w) = Ok (JArr [JStr "alpha"; JStr "beta"; JStr "gamma"])
  /\ upstream_list_calls sample_url (snd (accessor (wait 1000000 (snd (accessor w)))))
     = 2%nat.
Proof.
  destruct (X16_no_snapshot_without_file sample_url sample_key
              (startup 0 None
                 (Some (FileNotFoundError
                          "[Errno 2] No such file or directory: 'configured_indexers.json'"))
                 sample_net)
              (JArr [JStr "alpha"; JStr "beta"; JStr "gamma"])
              (FileNotFoundError
                 "[Errno 2] No such file or directory: 'configured_indexers.json'")
              1000000 eq_refl eq_refl eq_refl sample_listing)
    as (H1 & _ & _ & H4).
  split; [exact H1|exact H4].
Defined.

Lemma X17_indexers_route_then_accessor_witness :
  let w1 := wait 1000000
              (snd (get_indexers sample_url sample_key
                      (startup 0 None None sample_net))) in
  fst (get_configured_indexers_from_file sample_url sample_key w1)
  = Ok (JArr [JStr "alpha"; JStr "beta"; JStr "gamma"])
  /\ upstream_list_calls sample_url
       (snd (get_configured_indexers_from_file sample_url sample_key w1))
     = 1%nat.
Proof.
  cbv zeta.
  rewrite (proj1 (X17_indexers_route_then_accessor sample_url sample_key
                    (startup 0 None None sample_net)
                    (JArr [JStr "alpha"; JStr "beta"; JStr "gamma"]) 1000000
                    sample_listing eq_refl) eq_refl).
  split; reflexivity.
Defined.

Lemma X18_search_without_registry_witness :
  fst (event_generator sample_url sample_key sample_dumps sample_repr sample_2f
      sample_unicode_lower
         [] "ubuntu" (startup 0 None None (fun _ _ => sample_unavailable)))
  = {| emitted := [];
       failure := Some (HTTPException 503
                          "Jackett API Error: 503 - Service Unavailable") |}.
Proof.
  exact (proj1 (X18_search_without_registry sample_url sample_key sample_dumps sample_repr
           sample_2f sample_unicode_lower
                  (startup 0 None None (fun _ _ => sample_unavailable))
                  [] "ubuntu"
                  {| status := 503; reason := "Service Unavailable";
                     body := Raise (ClientError "unexpected mimetype: text/html") |}
                  (or_introl eq_refl) eq_refl ltac:(discriminate))).
Defined.

Lemma sample_completion_order : completion_order [2; 0; 1]%nat 3.
Proof. exact (Permutation_app_comm [2%nat] [0%nat; 1%nat]). Defined.

Lemma X19_stream_of_whole_batches_witness :
  emitted (fst (event_generator sample_url sample_key sample_dumps sample_repr
           sample_2f
               sample_unicode_lower [2; 0; 1]%nat "ubuntu" (startup 0 None None sample_net)))
  = ["data: {Title: Ubuntu 24.04, ...}" ++ String "010" (String "010" "");
     "data: {error: Error fetching from indexer beta: 503}"
       ++ String "010" (String "010" "")].
Proof.
  rewrite (proj1 (X19_stream_of_whole_batches sample_url sample_key sample_dumps sample_repr
           sample_2f sample_unicode_lower (startup 0 None None sample_net)
                    [2; 0; 1]%nat "ubuntu"
                    [JStr "alpha"; JStr "beta"; JStr "gamma"]
                    [[JObj [("Title", JStr "Ubuntu 24.04");
                            ("Link", JStr "magnet:?xt=urn:btih:abcdef0123");
                            ("Size", JNull); ("Seeders", JNum 12);
                            ("Leechers", JNull);
                            ("InfoHash", JStr "ABCDEF0123");
                            ("IndexerId", JStr "alpha");
                            ("year", JNull); ("Details", JNull)]];
                     [JObj [("error", JStr "Error fetching from indexer beta: 503")]];
                     []]
                    eq_refl
                    ltac:(repeat constructor))).
  reflexivity.
Defined.

Lemma X20_one_request_per_registry_entry_witness :
  Permutation
    (requests (trace (snd (event_generator sample_url sample_key sample_dumps sample_repr
           sample_2f sample_unicode_lower [2; 0; 1]%nat "ubuntu"
                             (startup 0 None None sample_net)))))
    [("http://jackett:9117/api/v2.0/indexers/alpha/results",
      [("apikey", Some "secret"); ("Query", Some "ubuntu")]);
     ("http://jackett:9117/api/v2.0/indexers/beta/results",
      [("apikey", Some "secret"); ("Query", Some "ubuntu")]);
     ("http://jackett:9117/api/v2.0/indexers/gamma/results",
      [("apikey", Some "secret"); ("Query", Some "ubuntu")]);
     ("http://jackett:9117/api/v2.0/indexers", [("apikey", Some "secret")])].
Proof.
  exact (X20_one_request_per_registry_entry sample_url sample_key sample_dumps sample_repr
           sample_2f sample_unicode_lower (startup 0 None None sample_net)
           [2; 0; 1]%nat "ubuntu" [JStr "alpha"; JStr "beta"; JStr "gamma"]
           eq_refl).
Defined.

Lemma X21_cache_content_not_validated_witness :
  fst (event_generator sample_url sample_key sample_dumps sample_repr sample_2f
      sample_unicode_lower
         [] "ubuntu" (startup 0 (Some (Ok JNull)) None sample_net))
  = {| emitted := [];
       failure := Some (TypeError "'NoneType' object is not iterable") |}.
Proof.
  rewrite (X21_cache_content_not_validated sample_url sample_key sample_dumps sample_repr
           sample_2f sample_unicode_lower (startup 0 (Some (Ok JNull)) None sample_net)
             [] "ubuntu" JNull eq_refl eq_refl (or_introl eq_refl)).
  reflexivity.
Defined.

Lemma X22_one_error_record_per_failed_backend_witness :
  exists items,
    fst (event_generator sample_url sample_key sample_dumps sample_repr sample_2f
        sample_unicode_lower
           [2; 0; 1]%nat "ubuntu" (startup 0 None None sample_net))
    = {| emitted := map (sse sample_dumps) items; failure := None |}
    /\ List.length (filter is_error_record items) = 1%nat.
Proof.
  apply (X22_one_error_record_per_failed_backend sample_url sample_key
           sample_dumps sample_repr sample_2f
               sample_unicode_lower (startup 0 None None sample_net)
           [2; 0; 1]%nat "ubuntu" [JStr "alpha"; JStr "beta"; JStr "gamma"]
           eq_refl sample_completion_order).
  intros indexer_id [<- | [<- | [<- | []]]] Hf.
  - eexists.
    exists {| status := 200; reason := "OK";
              body := Ok (JObj [("Results", JArr [sample_raw])]) |}.
    exists [("Results", JArr [sample_raw])], [sample_raw].
    repeat split; try reflexivity. repeat constructor.
  - discriminate Hf.
  - exists [].
    exists {| status := 200; reason := "OK";
              body := Ok (JObj [("Indexers", JArr [])]) |}.
    exists [("Indexers", JArr [])], [].
    repeat split; try reflexivity. repeat constructor.
Defined.
